(** * Bill-buddy (Sunil Stores billing): the database operations of [main.py]

    A shallow embedding of the SQLite-backed operations of the billing
    application: the stock helper [update_stock], the bill counter
    [get_next_bill_no], the dialogs' [accept] methods, the purchase entry
    [add_stock], the billing tab's [print_and_finish] and rate list, and the
    receipt layout of [print_receipt].

    Python [str] values are sequences of code points, Python [float] and
    SQLite [REAL] values are IEEE binary64 numbers (the kernel's primitive
    floats), and a table is the list of its rows in rowid order. *)

From Stdlib Require Import ZArith NArith List Bool Ascii String Lia.
From Stdlib Require Import PrimFloat.
From Stdlib Require Import Decimal DecimalString DecimalPos DecimalZ.
Import ListNotations.

Set Implicit Arguments.

(* ================================================================= *)
(** ** Python strings *)

Module PyStr.

(** A character is its Unicode code point. *)
Definition pychar := N.
Definition pystr := list pychar.

(** An ASCII literal of the source. *)
Definition lit (s : string) : pystr :=
  map N_of_ascii (list_ascii_of_string s).

(** The rupee sign U+20B9 of the source's f-strings. *)
Definition rupee : pychar := 8377%N.
Definition dash : pychar := 45%N.
Definition space : pychar := 32%N.

Fixpoint eqb (a b : pystr) : bool :=
  match a, b with
  | [], [] => true
  | x :: a', y :: b' => N.eqb x y && eqb a' b'
  | _, _ => false
  end.

(** [bool(s)]: a string is true when it is not empty. *)
Definition truthy (s : pystr) : bool :=
  match s with [] => false | _ :: _ => true end.

(** [s[:n]] *)
Definition take (n : nat) (s : pystr) : pystr := firstn n s.

(** [s.ljust(w)] and [s.rjust(w)] pad with spaces and never truncate. *)
Definition ljust (w : nat) (s : pystr) : pystr :=
  s ++ repeat space (w - List.length s).
Definition rjust (w : nat) (s : pystr) : pystr :=
  repeat space (w - List.length s) ++ s.

(** [s.center(w)]: CPython puts [marg/2 + (marg & w & 1)] spaces on the
    left, the rest on the right. *)
Definition center (w : nat) (s : pystr) : pystr :=
  let marg := w - List.length s in
  let left := Nat.div2 marg + (if Nat.odd marg && Nat.odd w then 1 else 0) in
  repeat space left ++ s ++ repeat space (marg - left).

(** [c * n] for a one-character string. *)
Definition times (c : pychar) (n : nat) : pystr := repeat c n.

(** [sep.join(lines)] *)
Fixpoint join (sep : pystr) (lines : list pystr) : pystr :=
  match lines with
  | [] => []
  | [l] => l
  | l :: rest => l ++ sep ++ join sep rest
  end.

(** [str(n)] of an integer: the decimal digits, with a leading minus sign. *)
Definition of_int (n : Z) : pystr :=
  lit (NilZero.string_of_int (Z.to_int n)).

End PyStr.
Import PyStr.

(* ================================================================= *)
(** ** Python floats *)

Module PyFloat.

Definition zero : float := 0%float.

(** [bool(x)] is [x != 0.0]: both zeros are false, NaN is true. *)
Definition truthy (x : float) : bool := negb (PrimFloat.eqb x zero).

Definition neg (x : float) : float := PrimFloat.opp x.
Definition add (x y : float) : float := PrimFloat.add x y.
Definition is_nan (x : float) : bool := negb (PrimFloat.eqb x x).

End PyFloat.

(* ================================================================= *)
(** ** Exceptions and results *)

Inductive exn : Type :=
| TypeError
| ValueError
| ZeroDivisionError
| IntegrityError.

Inductive result (A : Type) : Type :=
| Ok (a : A)
| Raise (e : exn).
Arguments Ok {A} a.
Arguments Raise {A} e.

Definition rbind {A B} (r : result A) (k : A -> result B) : result B :=
  match r with
  | Ok a => k a
  | Raise e => Raise e
  end.

Notation "x <- r ;; k" := (rbind r (fun x => k))
  (at level 61, r at next level, right associativity).

(** [x / y] on floats raises on a zero divisor. *)
Definition py_truediv (x y : float) : result float :=
  if PrimFloat.eqb y PyFloat.zero then Raise ZeroDivisionError
  else Ok (PrimFloat.div x y).

(* ================================================================= *)
(** ** SQLite cells *)

(** What a column of [TEXT] affinity holds when only strings and [None] are
    bound to it. *)
Definition text_cell := option pystr.

(** What a column of [REAL] affinity holds: [NULL], a number (an integer is
    forced to floating point), or a text that is not a well-formed numeric
    literal (the empty string among them), which SQLite keeps as text. *)
Inductive real_cell : Type :=
| RNull
| RReal (x : float)
| RText (s : pystr).

(** The value Python reads from a cell is [None], a [float] or a [str];
    its truth value: *)
Definition real_truthy (c : real_cell) : bool :=
  match c with
  | RNull => false
  | RReal x => PyFloat.truthy x
  | RText s => PyStr.truthy s
  end.

Definition is_none (c : real_cell) : bool :=
  match c with RNull => true | _ => false end.

(** [unit == sec] where [sec] was read from a [TEXT] column. *)
Definition text_equals (u : pystr) (c : text_cell) : bool :=
  match c with
  | Some s => PyStr.eqb u s
  | None => false
  end.

Definition text_truthy (c : text_cell) : bool :=
  match c with
  | Some s => PyStr.truthy s
  | None => false
  end.

(** Binding a Python [float] as a statement parameter: SQLite has no NaN
    and turns it into [NULL]. *)
Definition bind_float (x : float) : real_cell :=
  if PyFloat.is_nan x then RNull else RReal x.

(* ================================================================= *)
(** ** The parts of Python and SQLite the program relies on *)

(** Parsing of numbers: [float(s)] and [int(s)] of Python ([None] stands
    for [ValueError]).  [int] reads back what [str] wrote. *)
Class PyParse : Type := {
  py_float : pystr -> option float;
  py_int : pystr -> option Z;
  py_int_of_str : forall n : Z, py_int (PyStr.of_int n) = Some n
}.

(** Rendering of floats: [round(x, 2)] and [str(x)] as an f-string prints
    a float. *)
Class PyFloatFmt : Type := {
  py_round2 : float -> float;
  py_str_float : float -> pystr
}.

(** SQLite's conversions of a text: on storing it in a [REAL] column
    (a well-formed numeric literal becomes a number, anything else stays
    text), and as an operand of [+] (its numeric prefix, 0 without one). *)
Class SqliteCoerce : Type := {
  real_affinity : pystr -> real_cell;
  text_to_real : pystr -> float
}.

(** SQL [old + ?] with a Python float bound to [?].  [NULL] is absorbing,
    a text operand counts as its numeric value, and a NaN result is
    [NULL]. *)
Definition sql_plus `{SqliteCoerce} (old : real_cell) (q : float) : real_cell :=
  match old, bind_float q with
  | RNull, _ => RNull
  | _, RNull => RNull
  | RReal a, _ => bind_float (PyFloat.add a q)
  | RText s, _ => bind_float (PyFloat.add (text_to_real s) q)
  end.

(* ================================================================= *)
(** ** The schema of [init_db] *)

Module Item.
Record row : Type := mk {
  ItemID : Z;                 (* INTEGER PRIMARY KEY AUTOINCREMENT *)
  Name : pystr;               (* TEXT NOT NULL *)
  Code : text_cell;           (* TEXT UNIQUE *)
  Category : text_cell;
  HSN : text_cell;
  BaseUnit : pystr;           (* TEXT NOT NULL *)
  SecondaryUnit : text_cell;
  ConversionRate : real_cell;
  RateA : real_cell;          (* REAL NOT NULL *)
  RateB : real_cell;
  RateC : real_cell;
  PurchaseRate : real_cell;
  StockQty : real_cell;       (* REAL DEFAULT 0 *)
  AlertLevel : real_cell;
  ImagePath : text_cell
}.

Definition with_StockQty (r : row) (q : real_cell) : row :=
  mk (ItemID r) (Name r) (Code r) (Category r) (HSN r) (BaseUnit r)
     (SecondaryUnit r) (ConversionRate r) (RateA r) (RateB r) (RateC r)
     (PurchaseRate r) q (AlertLevel r) (ImagePath r).
End Item.

Module Customer.
Record row : Type := mk {
  CustomerID : Z;
  Name : pystr;               (* TEXT NOT NULL UNIQUE *)
  GSTIN : text_cell;
  Area : text_cell
}.
End Customer.

Module Purchase.
Record row : Type := mk {
  PurchaseID : Z;
  Date : text_cell;
  Supplier : text_cell;
  ItemID : Z;
  Unit : text_cell;
  Qty : real_cell;
  Rate : real_cell
}.
End Purchase.

Module StockAdjustment.
Record row : Type := mk {
  AdjID : Z;
  Date : text_cell;
  ItemID : Z;
  QtyChange : real_cell;
  Unit : text_cell;
  Reason : text_cell
}.
End StockAdjustment.

Module Setting.
Record row : Type := mk {
  Key : pystr;                (* TEXT PRIMARY KEY *)
  Value : text_cell
}.
End Setting.

Module BillNumber.
Record row : Type := mk {
  BillDate : pystr;
  LastBillNo : Z
}.
End BillNumber.

(** The database file: the six tables, and for each [AUTOINCREMENT] key
    the largest rowid handed out so far ([sqlite_sequence]). *)
Record DB : Type := mkDB {
  Items : list Item.row;
  Customers : list Customer.row;
  Purchases : list Purchase.row;
  StockAdjustments : list StockAdjustment.row;
  Settings : list Setting.row;
  BillNumbers : list BillNumber.row;
  seq_Items : Z;
  seq_Customers : Z;
  seq_Purchases : Z;
  seq_StockAdjustments : Z
}.

Definition with_Items (db : DB) (rows : list Item.row) : DB :=
  mkDB rows (Customers db) (Purchases db) (StockAdjustments db)
       (Settings db) (BillNumbers db) (seq_Items db) (seq_Customers db)
       (seq_Purchases db) (seq_StockAdjustments db).

Definition with_Settings (db : DB) (rows : list Setting.row) : DB :=
  mkDB (Items db) (Customers db) (Purchases db) (StockAdjustments db)
       rows (BillNumbers db) (seq_Items db) (seq_Customers db)
       (seq_Purchases db) (seq_StockAdjustments db).

(** The rowid an [AUTOINCREMENT] table gives its next row: one more than
    the largest rowid it has or ever had. *)
Definition next_rowid (seq : Z) (ids : list Z) : Z :=
  fold_right Z.max seq ids + 1.

(** A database action: the file after it, and what the Python call
    returned or raised. *)
Definition action (A : Type) : Type := DB -> DB * result A.

(* ================================================================= *)
(** ** [update_stock] *)

(** [c.fetchone()] after [SELECT ... FROM Items WHERE Name=?]. *)
Definition fetch_item (rows : list Item.row) (item_name : pystr)
  : option Item.row :=
  find (fun r => PyStr.eqb (Item.Name r) item_name) rows.

(** [float(conv)] of a value read from a [REAL] column. *)
Definition float_of_cell `{PyParse} (c : real_cell) : result float :=
  match c with
  | RNull => Raise TypeError
  | RReal x => Ok x
  | RText s =>
      match py_float s with
      | Some x => Ok x
      | None => Raise ValueError
      end
  end.

(** The conversion to the base unit:
    [if unit == sec and conv: qty_change = float(qty_change) / float(conv)]. *)
Definition to_base_unit `{PyParse} (unit : pystr) (sec : text_cell)
    (conv : real_cell) (qty_change : float) : result float :=
  if text_equals unit sec && real_truthy conv then
    d <- float_of_cell conv ;;
    py_truediv qty_change d
  else Ok qty_change.

(** [UPDATE Items SET StockQty=StockQty+? WHERE Name=?] *)
Definition add_to_stock `{SqliteCoerce} (item_name : pystr) (q : float)
    (rows : list Item.row) : list Item.row :=
  map (fun r =>
         if PyStr.eqb (Item.Name r) item_name
         then Item.with_StockQty r (sql_plus (Item.StockQty r) q)
         else r) rows.

Definition update_stock `{PyParse} `{SqliteCoerce}
    (item_name unit : pystr) (qty_change : float) : action Datatypes.unit :=
  fun db =>
    match fetch_item (Items db) item_name with
    | None => (db, Ok tt)
    | Some row =>
        match to_base_unit unit (Item.SecondaryUnit row)
                           (Item.ConversionRate row) qty_change with
        | Raise e => (db, Raise e)
        | Ok q => (with_Items db (add_to_stock item_name q (Items db)), Ok tt)
        end
    end.

(* ================================================================= *)
(** ** [get_next_bill_no] *)

Definition LastBillNo_key : pystr := lit "LastBillNo".

(** [c.fetchone()] after [SELECT Value FROM Settings WHERE Key='LastBillNo']. *)
Definition fetch_setting (rows : list Setting.row) (key : pystr)
  : option Setting.row :=
  find (fun r => PyStr.eqb (Setting.Key r) key) rows.

(** [UPDATE Settings SET Value=? WHERE Key='LastBillNo'] *)
Definition set_setting (key : pystr) (v : pystr) (rows : list Setting.row)
  : list Setting.row :=
  map (fun r =>
         if PyStr.eqb (Setting.Key r) key
         then Setting.mk (Setting.Key r) (Some v)
         else r) rows.

Definition get_next_bill_no `{PyParse} : action Z :=
  fun db =>
    match fetch_setting (Settings db) LastBillNo_key with
    | None => (db, Raise TypeError)          (* None[0] *)
    | Some row =>
        match Setting.Value row with
        | None => (db, Raise TypeError)      (* int(None) *)
        | Some text =>
            match py_int text with
            | None => (db, Raise ValueError)
            | Some last_no =>
                let next_no := (last_no + 1)%Z in
                (with_Settings db
                   (set_setting LastBillNo_key (PyStr.of_int next_no)
                                (Settings db)),
                 Ok next_no)
            end
        end
    end.

(* ================================================================= *)
(** ** What a slot of the user interface ends with *)

Inductive outcome : Type :=
| Done                (* the dialog is accepted, or the success message is shown *)
| Rejected            (* the validation warning is shown and the slot returns *)
| Failed (e : exn)    (* an exception is caught and shown as a warning *)
| Raised (e : exn).   (* an exception leaves the slot *)

(* ================================================================= *)
(** ** [ItemDialog.accept] *)

Module ItemDialog.

(** The texts of the dialog's widgets. *)
Record form : Type := mk {
  name : pystr;
  code : pystr;
  category : pystr;
  hsn : pystr;
  baseunit : pystr;
  secondaryunit : pystr;
  conversion : pystr;
  ratea : pystr;
  rateb : pystr;
  ratec : pystr;
  purchaserate : pystr;
  stockqty : pystr;
  alertlevel : pystr;
  imagepath : pystr
}.

(** The row the statement's parameters give, under the columns'
    affinities, for the key [id]. *)
Definition stored `{SqliteCoerce} (id : Z) (f : form) : Item.row :=
  Item.mk id (name f) (Some (code f)) (Some (category f)) (Some (hsn f))
          (baseunit f) (Some (secondaryunit f))
          (real_affinity (conversion f)) (real_affinity (ratea f))
          (real_affinity (rateb f)) (real_affinity (ratec f))
          (real_affinity (purchaserate f)) (real_affinity (stockqty f))
          (real_affinity (alertlevel f)) (Some (imagepath f)).

Definition named (n : pystr) (r : Item.row) : bool :=
  PyStr.eqb (Item.Name r) n.

Definition has_code (c : pystr) (r : Item.row) : bool :=
  text_equals c (Item.Code r).

(** [UPDATE Items SET Code=?, ..., ImagePath=? WHERE Name=?] *)
Definition update_rows `{SqliteCoerce} (f : form) (rows : list Item.row)
  : list Item.row :=
  map (fun r => if named (name f) r then stored (Item.ItemID r) f else r)
      rows.

(** The [UNIQUE] index on [Code] is checked row by row: the update fails
    when another row already has the new code, or when it would give the
    code to two rows. *)
Definition update_conflict (f : form) (rows : list Item.row) : bool :=
  existsb (fun r => negb (named (name f) r) && has_code (code f) r) rows
  || (2 <=? List.length (filter (named (name f)) rows))%nat.

Definition insert_conflict (f : form) (rows : list Item.row) : bool :=
  existsb (has_code (code f)) rows.

Definition accept `{SqliteCoerce} (f : form) : DB -> DB * outcome :=
  fun db =>
    if negb (PyStr.truthy (name f)) || negb (PyStr.truthy (baseunit f))
       || negb (PyStr.truthy (ratea f))
    then (db, Rejected)
    else if existsb (named (name f)) (Items db) then
      if update_conflict f (Items db) then (db, Failed IntegrityError)
      else (with_Items db (update_rows f (Items db)), Done)
    else
      if insert_conflict f (Items db) then (db, Failed IntegrityError)
      else
        let id := next_rowid (seq_Items db) (map Item.ItemID (Items db)) in
        (mkDB (Items db ++ [stored id f]) (Customers db) (Purchases db)
              (StockAdjustments db) (Settings db) (BillNumbers db)
              id (seq_Customers db) (seq_Purchases db)
              (seq_StockAdjustments db),
         Done).

(** [update_converted_rates]: the three labels of the rates in the
    secondary unit. *)
Definition converted_label `{PyParse} `{PyFloatFmt}
    (sec_unit : pystr) (conv : float) (rate_text : pystr) : pystr :=
  match
    (r <- match py_float rate_text with
          | Some x => Ok x
          | None => Raise ValueError
          end ;;
     q <- py_truediv r conv ;;
     Ok (sec_unit ++ lit ": " ++ py_str_float (py_round2 q)))
  with
  | Ok s => s
  | Raise _ => []
  end.

Definition update_converted_rates `{PyParse} `{PyFloatFmt} (f : form)
  : pystr * pystr * pystr :=
  match py_float (conversion f) with
  | None => ([], [], [])
  | Some conv =>
      if negb (PyStr.truthy (secondaryunit f))
         || negb (PyFloat.truthy conv)
         || PrimFloat.eqb conv PyFloat.zero
      then ([], [], [])
      else (converted_label (secondaryunit f) conv (ratea f),
            converted_label (secondaryunit f) conv (rateb f),
            converted_label (secondaryunit f) conv (ratec f))
  end.

End ItemDialog.

(* ================================================================= *)
(** ** [CustomerDialog.accept] *)

Module CustomerDialog.

Record form : Type := mk {
  name : pystr;
  gstin : pystr;
  area : pystr
}.

Definition named (n : pystr) (r : Customer.row) : bool :=
  PyStr.eqb (Customer.Name r) n.

(** The name is looked up first, so the insert never meets the [UNIQUE]
    index on [Name]. *)
Definition accept (f : form) : DB -> DB * outcome :=
  fun db =>
    if negb (PyStr.truthy (name f)) then (db, Rejected)
    else if existsb (named (name f)) (Customers db) then
      (mkDB (Items db)
            (map (fun r => if named (name f) r
                           then Customer.mk (Customer.CustomerID r)
                                  (Customer.Name r)
                                  (Some (gstin f)) (Some (area f))
                           else r) (Customers db))
            (Purchases db) (StockAdjustments db) (Settings db)
            (BillNumbers db) (seq_Items db) (seq_Customers db)
            (seq_Purchases db) (seq_StockAdjustments db),
       Done)
    else
      let id := next_rowid (seq_Customers db)
                           (map Customer.CustomerID (Customers db)) in
      (mkDB (Items db)
            (Customers db ++
               [Customer.mk id (name f) (Some (gstin f)) (Some (area f))])
            (Purchases db) (StockAdjustments db) (Settings db)
            (BillNumbers db) (seq_Items db) id
            (seq_Purchases db) (seq_StockAdjustments db),
       Done).

End CustomerDialog.

(* ================================================================= *)
(** ** [StockAdjustDialog.accept] and [PurchasesTab.add_stock] *)

(** [float(text)] of a widget's text. *)
Definition float_of_text `{PyParse} (text : pystr) : result float :=
  match py_float text with
  | Some x => Ok x
  | None => Raise ValueError
  end.

(** [c.fetchone()[0]] after [SELECT ItemID FROM Items WHERE Name=?]. *)
Definition fetch_item_id (rows : list Item.row) (item_name : pystr)
  : result Z :=
  match fetch_item rows item_name with
  | Some r => Ok (Item.ItemID r)
  | None => Raise TypeError
  end.

Module StockAdjustDialog.

Record form : Type := mk {
  item : pystr;      (* the label set from the selected stock row *)
  qty : pystr;
  unit : pystr;
  reason : pystr
}.

(** [now] is the text of the current date and time. *)
Definition accept `{PyParse} `{SqliteCoerce} (now : pystr) (f : form)
  : DB -> DB * outcome :=
  fun db =>
    if negb (PyStr.truthy (qty f)) || negb (PyStr.truthy (reason f))
    then (db, Rejected)
    else
      match float_of_text (qty f) with
      | Raise e => (db, Raised e)
      | Ok q =>
          match update_stock (item f) (unit f) q db with
          | (db1, Raise e) => (db1, Raised e)
          | (db1, Ok _) =>
              match fetch_item_id (Items db1) (item f) with
              | Raise e => (db1, Raised e)
              | Ok itemid =>
                  let id := next_rowid (seq_StockAdjustments db1)
                              (map StockAdjustment.AdjID
                                   (StockAdjustments db1)) in
                  (mkDB (Items db1) (Customers db1) (Purchases db1)
                        (StockAdjustments db1 ++
                           [StockAdjustment.mk id (Some now) itemid
                              (real_affinity (qty f)) (Some (unit f))
                              (Some (reason f))])
                        (Settings db1) (BillNumbers db1) (seq_Items db1)
                        (seq_Customers db1) (seq_Purchases db1) id,
                   Done)
              end
          end
      end.

End StockAdjustDialog.

Module PurchasesTab.

Record form : Type := mk {
  item : pystr;
  unit : pystr;
  qty : pystr;
  rate : pystr;
  supplier : pystr
}.

(** The row [add_stock] logs for the item key [itemid]. *)
Definition logged `{SqliteCoerce} (id : Z) (now : pystr) (itemid : Z)
    (f : form) : Purchase.row :=
  Purchase.mk id (Some now) (Some (supplier f)) itemid (Some (unit f))
              (real_affinity (qty f)) (real_affinity (rate f)).

Definition add_stock `{PyParse} `{SqliteCoerce} (now : pystr) (f : form)
  : DB -> DB * outcome :=
  fun db =>
    if negb (PyStr.truthy (item f)) || negb (PyStr.truthy (unit f))
       || negb (PyStr.truthy (qty f))
    then (db, Rejected)
    else
      match float_of_text (qty f) with
      | Raise e => (db, Raised e)
      | Ok q =>
          match update_stock (item f) (unit f) q db with
          | (db1, Raise e) => (db1, Raised e)
          | (db1, Ok _) =>
              match fetch_item_id (Items db1) (item f) with
              | Raise e => (db1, Raised e)
              | Ok itemid =>
                  let id := next_rowid (seq_Purchases db1)
                              (map Purchase.PurchaseID (Purchases db1)) in
                  (mkDB (Items db1) (Customers db1)
                        (Purchases db1 ++ [logged id now itemid f])
                        (StockAdjustments db1) (Settings db1)
                        (BillNumbers db1) (seq_Items db1)
                        (seq_Customers db1) id (seq_StockAdjustments db1),
                   Done)
              end
          end
      end.

End PurchasesTab.

(* ================================================================= *)
(** ** [print_receipt] *)

(** A billed line as [print_and_finish] gathers it:
    [(item, unit, qty, rate, total)], all texts of the widgets. *)
Record bill_item : Type := mk_bill_item {
  bi_item : pystr;
  bi_unit : pystr;
  bi_qty : pystr;
  bi_rate : pystr;
  bi_total : pystr
}.

Definition width : nat := 48.

Definition separator : pystr := PyStr.times dash width.

(** The body of the loop over [items]. *)
Definition item_line (it : bill_item) : pystr :=
  let item_str := ljust 16 (take 16 (bi_item it)) in
  let unit_str := ljust 6 (take 6 (bi_unit it)) in
  let qty_str := rjust 6 (take 6 (bi_qty it)) in
  let rate_str := rjust 8 (take 8 (bi_rate it)) in
  let total_str := rjust 8 (take 8 (bi_total it)) in
  item_str ++ unit_str ++ qty_str ++ rate_str ++ total_str.

Definition receipt_head (bill_no customer date : pystr) : list pystr :=
  [ separator;
    center width (lit "        SUNIL STORES");
    separator;
    ljust (Nat.div width 2) (lit "Bill No: " ++ bill_no)
      ++ rjust (Nat.div width 2) (lit "Customer: " ++ customer);
    lit "Date: " ++ date;
    separator;
    ljust 16 (lit "Item") ++ ljust 6 (lit "Unit") ++ ljust 6 (lit "Qty")
      ++ ljust 8 (lit "Rate") ++ ljust 8 (lit "Total");
    separator ].

Definition receipt_foot (totalqty grand : pystr) : list pystr :=
  [ separator;
    ljust (Nat.div width 2) (lit "Total Qty: " ++ totalqty)
      ++ rjust (Nat.div width 2) (lit "Grand: " ++ [rupee] ++ grand);
    separator;
    center width (lit "         THANK YOU FOR SHOPPING");
    separator ].

(** The list [receipt] whose lines, joined by newlines, are printed. *)
Definition print_receipt (bill_no customer date : pystr)
    (items : list bill_item) (totalqty grand : pystr) : list pystr :=
  receipt_head bill_no customer date
  ++ map item_line items
  ++ receipt_foot totalqty grand.

(* ================================================================= *)
(** ** [BillingTab] *)

Module BillingTab.

(** What [print_and_finish] reads from the widgets. *)
Record bill : Type := mk {
  bill_no : pystr;
  customer : pystr;
  date : pystr;
  rows : list bill_item;
  totalqty : pystr;
  grand : pystr
}.

(** What [print_and_finish] ends with: the receipt printed and the next
    bill number shown; the receipt printed and a later failure caught;
    or an exception raised while the rows are gathered. *)
Inductive finish : Type :=
| Finished (receipt : list pystr) (next_no : Z)
| PrintingFailed (receipt : list pystr) (e : exn)
| Escaped (e : exn).

(** [if item and qty and float(qty) > 0: items.append(...)] *)
Definition billed `{PyParse} (it : bill_item) : result bool :=
  if PyStr.truthy (bi_item it) && PyStr.truthy (bi_qty it) then
    q <- float_of_text (bi_qty it) ;;
    Ok (PrimFloat.ltb PyFloat.zero q)
  else Ok false.

Fixpoint gather `{PyParse} (rows : list bill_item)
  : result (list bill_item) :=
  match rows with
  | [] => Ok []
  | it :: rest =>
      keep <- billed it ;;
      items <- gather rest ;;
      Ok (if keep then it :: items else items)
  end.

(** [for item, unit, qty, rate, total in items:
       update_stock(item, unit, -float(qty))] *)
Fixpoint sell `{PyParse} `{SqliteCoerce} (items : list bill_item)
  : action unit :=
  fun db =>
    match items with
    | [] => (db, Ok tt)
    | it :: rest =>
        match float_of_text (bi_qty it) with
        | Raise e => (db, Raise e)
        | Ok q =>
            match update_stock (bi_item it) (bi_unit it) (PyFloat.neg q) db
            with
            | (db1, Raise e) => (db1, Raise e)
            | (db1, Ok _) => sell rest db1
            end
        end
    end.

Definition print_and_finish `{PyParse} `{SqliteCoerce} (b : bill)
  : DB -> DB * finish :=
  fun db =>
    match gather (rows b) with
    | Raise e => (db, Escaped e)
    | Ok items =>
        let receipt :=
          print_receipt (bill_no b) (customer b) (date b) items
                        (totalqty b) (grand b) in
        match sell items db with
        | (db1, Raise e) => (db1, PrintingFailed receipt e)
        | (db1, Ok _) =>
            match get_next_bill_no db1 with
            | (db2, Raise e) => (db2, PrintingFailed receipt e)
            | (db2, Ok next_no) => (db2, Finished receipt next_no)
            end
        end
    end.

(** *** The rate list of [update_item_row] *)

(** The unit shown after the unit list is rebuilt: the previous text when
    it is one of the item's units, the base unit otherwise. *)
Definition units (base : pystr) (sec : text_cell) : list pystr :=
  match sec with
  | Some s => if PyStr.truthy s then [base; s] else [base]
  | None => [base]
  end.

Definition selected_unit (base : pystr) (sec : text_cell)
    (prev_unit : pystr) : pystr :=
  let current :=
    if existsb (PyStr.eqb prev_unit) (units base sec) then prev_unit
    else base in
  if PyStr.truthy current then current else base.

(** [rate / conv] on values read from [REAL] columns: only two floats
    divide. *)
Definition cell_truediv (rate conv : real_cell) : result float :=
  match rate, conv with
  | RReal a, RReal c => py_truediv a c
  | _, _ => Raise TypeError
  end.

(** [conv != 0] *)
Definition cell_ne_zero (conv : real_cell) : bool :=
  match conv with
  | RReal c => negb (PrimFloat.eqb c PyFloat.zero)
  | _ => true
  end.

(** [f"Rate A: (rupee sign){value}"] *)
Definition rate_text (label : string) (value : pystr) : pystr :=
  lit label ++ [rupee] ++ value.

(** [str(rate)] in the f-string of the base-unit branch. *)
Definition cell_str `{PyFloatFmt} (rate : real_cell) : pystr :=
  match rate with
  | RNull => lit "None"
  | RReal x => py_str_float x
  | RText s => s
  end.

Definition converted_tier `{PyFloatFmt} (label : string)
    (rate conv : real_cell) : result (list pystr) :=
  if is_none rate then Ok []
  else
    q <- cell_truediv rate conv ;;
    Ok [rate_text label (py_str_float (py_round2 q))].

Definition base_tier `{PyFloatFmt} (label : string) (rate : real_cell)
  : list pystr :=
  if is_none rate then [] else [rate_text label (cell_str rate)].

(** The list [rates] for the item row [r] when [selected] is the unit
    shown. *)
Definition rates `{PyFloatFmt} (r : Item.row) (selected : pystr)
  : result (list pystr) :=
  let conv := Item.ConversionRate r in
  if text_equals selected (Item.SecondaryUnit r)
     && real_truthy conv && cell_ne_zero conv
  then
    a <- converted_tier "Rate A: " (Item.RateA r) conv ;;
    b <- converted_tier "Rate B: " (Item.RateB r) conv ;;
    c <- converted_tier "Rate C: " (Item.RateC r) conv ;;
    Ok (a ++ b ++ c)
  else
    Ok (base_tier "Rate A: " (Item.RateA r)
        ++ base_tier "Rate B: " (Item.RateB r)
        ++ base_tier "Rate C: " (Item.RateC r)).

(** The rates [update_item_row] offers, in a row whose rate widget is the
    combo, for the item named [item_name] when the unit combo showed
    [prev_unit]; [None] when the slot returns before it builds the list. *)
Definition offered_rates `{PyFloatFmt} (db : DB)
    (item_name prev_unit : pystr) : option (result (list pystr)) :=
  if negb (PyStr.truthy item_name) then None
  else
    match fetch_item (Items db) item_name with
    | None => None
    | Some r =>
        Some (rates r (selected_unit (Item.BaseUnit r)
                                     (Item.SecondaryUnit r) prev_unit))
    end.

End BillingTab.

(* ================================================================= *)
(** ** The stated behaviour, in the words of the specification *)

(** A conversion rate as the stock rules speak of it: absent ([NULL], or
    the blank text a dialog stores for an empty field) or a number. *)
Definition numeric_or_blank (c : real_cell) : Prop :=
  match c with
  | RText (_ :: _) => False
  | _ => True
  end.

(** The change of stock in base units: the quantity divided by the
    conversion rate when the unit is the item's secondary unit and the rate
    is a number other than zero, the quantity itself otherwise. *)
Definition stock_change (r : Item.row) (unit : pystr) (q : float) : float :=
  match Item.SecondaryUnit r, Item.ConversionRate r with
  | Some sec, RReal conv =>
      if PyStr.eqb unit sec && negb (PrimFloat.eqb conv PyFloat.zero)
      then PrimFloat.div q conv
      else q
  | _, _ => q
  end.

(** Two item rows that agree on every column but [StockQty]. *)
Definition same_but_stock (a b : Item.row) : Prop :=
  Item.ItemID a = Item.ItemID b /\ Item.Name a = Item.Name b /\
  Item.Code a = Item.Code b /\ Item.Category a = Item.Category b /\
  Item.HSN a = Item.HSN b /\ Item.BaseUnit a = Item.BaseUnit b /\
  Item.SecondaryUnit a = Item.SecondaryUnit b /\
  Item.ConversionRate a = Item.ConversionRate b /\
  Item.RateA a = Item.RateA b /\ Item.RateB a = Item.RateB b /\
  Item.RateC a = Item.RateC b /\
  Item.PurchaseRate a = Item.PurchaseRate b /\
  Item.AlertLevel a = Item.AlertLevel b /\
  Item.ImagePath a = Item.ImagePath b.


(** The events that move stock: a bill completed in the billing tab, and
    a purchase entered in the purchases tab at the time [now]. *)
Inductive event : Type :=
| Sale (b : BillingTab.bill)
| PurchaseEntry (now : pystr) (f : PurchasesTab.form).

(** The database after an event that completes (the bill is finished, the
    purchase reports success); [None] when it does not. *)
Definition complete `{PyParse} `{SqliteCoerce} (e : event) (db : DB)
  : option DB :=
  match e with
  | Sale b =>
      match BillingTab.print_and_finish b db with
      | (db', BillingTab.Finished _ _) => Some db'
      | _ => None
      end
  | PurchaseEntry now f =>
      match PurchasesTab.add_stock now f db with
      | (db', Done) => Some db'
      | _ => None
      end
  end.

Fixpoint run `{PyParse} `{SqliteCoerce} (events : list event) (db : DB)
  : option DB :=
  match events with
  | [] => Some db
  | e :: rest =>
      match complete e db with
      | Some db1 => run rest db1
      | None => None
      end
  end.

(** The quantity a bill line sells: a line counts when it names an item and
    its quantity text reads as a number above zero. *)
Definition billed_qty `{PyParse} (it : bill_item) : option float :=
  match bi_item it, bi_qty it, py_float (bi_qty it) with
  | _ :: _, _ :: _, Some q =>
      if PrimFloat.ltb PyFloat.zero q then Some q else None
  | _, _, _ => None
  end.

(** The signed changes, in base units, that an event makes to the stock of
    the item of row [r]: minus the quantity for each line of a bill that
    sells it, plus the quantity for a purchase of it. *)
Definition line_changes `{PyParse} (r : Item.row) (lines : list bill_item)
  : list float :=
  flat_map
    (fun it =>
       match billed_qty it with
       | Some q =>
           if PyStr.eqb (bi_item it) (Item.Name r)
           then [stock_change r (bi_unit it) (PyFloat.neg q)]
           else []
       | None => []
       end)
    lines.

Definition changes `{PyParse} (r : Item.row) (e : event) : list float :=
  match e with
  | Sale b => line_changes r (BillingTab.rows b)
  | PurchaseEntry _ f =>
      match py_float (PurchasesTab.qty f) with
      | Some q =>
          if PyStr.eqb (PurchasesTab.item f) (Item.Name r)
          then [stock_change r (PurchasesTab.unit f) q]
          else []
      | None => []
      end
  end.

Definition ledger `{PyParse} (r : Item.row) (events : list event)
  : list float :=
  flat_map (changes r) events.

(** A database that differs from another at most in [StockQty] cells of
    [Items] and in the value of the [LastBillNo] setting: no table has
    gained or lost a row. *)
Definition only_stock_and_counter (db db' : DB) : Prop :=
  Customers db' = Customers db /\
  Purchases db' = Purchases db /\
  StockAdjustments db' = StockAdjustments db /\
  BillNumbers db' = BillNumbers db /\
  seq_Items db' = seq_Items db /\
  seq_Customers db' = seq_Customers db /\
  seq_Purchases db' = seq_Purchases db /\
  seq_StockAdjustments db' = seq_StockAdjustments db /\
  Forall2 same_but_stock (Items db) (Items db') /\
  Forall2 (fun old new =>
             Setting.Key new = Setting.Key old /\
             (Setting.Key old <> LastBillNo_key -> new = old))
          (Settings db) (Settings db').



(** An item row changed at most in its stock, and not at all unless its
    name is one of [names]. *)
Definition only_stock_of (names : list pystr) (old new : Item.row) : Prop :=
  same_but_stock old new /\ (~ In (Item.Name old) names -> new = old).


(** The database [init_db] creates in a new file. *)
Definition init_db : DB :=
  mkDB [] [] [] [] [Setting.mk LastBillNo_key (Some (lit "1000"))] []
       0 0 0 0.

(** [k] successive calls of [get_next_bill_no]: what each returned, and
    the database after the last. *)
Fixpoint bill_numbers `{PyParse} (k : nat) (db : DB) : list (result Z) * DB :=
  match k with
  | O => ([], db)
  | S k' =>
      let '(db1, r) := get_next_bill_no db in
      let '(rs, db2) := bill_numbers k' db1 in
      (r :: rs, db2)
  end.

(* ================================================================= *)
(** ** A runtime to evaluate the model on plain decimal texts *)

(** [float] and SQLite's numeric conversion are realised here for texts of
    the form [-]digits[.digits]; with so few digits that numerator and
    denominator are exact, the correctly rounded quotient is the value both
    Python and SQLite read.  Any other text is not a number. *)
Module Plain.

Definition digit (c : pychar) : option float :=
  match c with
  | 48%N => Some 0%float | 49%N => Some 1%float | 50%N => Some 2%float
  | 51%N => Some 3%float | 52%N => Some 4%float | 53%N => Some 5%float
  | 54%N => Some 6%float | 55%N => Some 7%float | 56%N => Some 8%float
  | 57%N => Some 9%float
  | _ => None
  end.

(** Reads digits into [num], scaling [den] by ten for each one when
    [frac] is set; returns the number of digits read and the rest. *)
Fixpoint digits (frac : bool) (num den : float) (n : nat) (s : pystr)
  : float * float * nat * pystr :=
  match s with
  | c :: s' =>
      match digit c with
      | Some d =>
          digits frac (PrimFloat.add (PrimFloat.mul num 10%float) d)
                 (if frac then PrimFloat.mul den 10%float else den) (S n) s'
      | None => (num, den, n, s)
      end
  | [] => (num, den, n, [])
  end.

(** The decimal number at the start of [s] (without its sign), the number
    of its digits, and the text after it. *)
Definition unsigned_prefix (s : pystr) : float * nat * pystr :=
  let '(num, den, n, rest) := digits false 0%float 1%float 0 s in
  match rest with
  | 46%N :: rest' =>
      let '(num', den', n', rest'') := digits true num den n rest' in
      (PrimFloat.div num' den', n', rest'')
  | _ => (num, n, rest)
  end.

Definition prefix (s : pystr) : float * nat * pystr :=
  match s with
  | 45%N :: s' =>
      let '(x, n, rest) := unsigned_prefix s' in (PrimFloat.opp x, n, rest)
  | _ => unsigned_prefix s
  end.

Definition float_of (s : pystr) : option float :=
  match prefix s with
  | (x, S _, []) => Some x
  | _ => None
  end.

Definition unlit (s : pystr) : option string :=
  fold_right
    (fun c acc =>
       match acc with
       | Some t => if (c <? 256)%N then Some (String (ascii_of_N c) t)
                   else None
       | None => None
       end)
    (Some EmptyString) s.

Definition int_of (s : pystr) : option Z :=
  match unlit s with
  | Some t => option_map Z.of_int (NilZero.int_of_string t)
  | None => None
  end.

Definition affinity (s : pystr) : real_cell :=
  match float_of s with
  | Some x => RReal x
  | None => RText s
  end.

Definition numeric_value (s : pystr) : float :=
  match prefix s with
  | (x, S _, _) => x
  | _ => PyFloat.zero
  end.

End Plain.

(* ================================================================= *)
(** ** Lemmas on strings and lists *)

Lemma pystr_eqb_refl (s : pystr) : PyStr.eqb s s = true.
Proof.
  induction s as [|c s IH]; simpl; [reflexivity|].
  now rewrite N.eqb_refl, IH.
Qed.

Lemma pystr_eqb_eq (a b : pystr) : PyStr.eqb a b = true <-> a = b.
Proof.
  split.
  - revert b. induction a as [|x a IH]; intros [|y b] E; simpl in E;
      try discriminate; [reflexivity|].
    apply andb_true_iff in E. destruct E as [Exy Eab].
    apply N.eqb_eq in Exy. subst y. f_equal. now apply IH.
  - intros ->. apply pystr_eqb_refl.
Qed.

Lemma pystr_eqb_neq (a b : pystr) : PyStr.eqb a b = false <-> a <> b.
Proof.
  split.
  - intros E ->. rewrite pystr_eqb_refl in E. discriminate.
  - intros N. destruct (PyStr.eqb a b) eqn:E; [|reflexivity].
    apply pystr_eqb_eq in E. contradiction.
Qed.

Lemma text_equals_iff (u : pystr) (c : text_cell) :
  text_equals u c = true <-> c = Some u.
Proof.
  destruct c as [s|]; simpl.
  - rewrite pystr_eqb_eq. split; [now intros ->| now intros [= ->]].
  - split; discriminate.
Qed.

Lemma unlit_lit (s : string) : Plain.unlit (lit s) = Some s.
Proof.
  induction s as [|a s IH]; [reflexivity|].
  unfold lit in *. simpl. rewrite IH.
  assert (L : (N_of_ascii a <? 256)%N = true)
    by (apply N.ltb_lt, N_ascii_bounded).
  rewrite L. now rewrite ascii_N_embedding.
Qed.

Lemma plain_int_of_str (n : Z) : Plain.int_of (PyStr.of_int n) = Some n.
Proof.
  unfold Plain.int_of, PyStr.of_int. rewrite unlit_lit.
  rewrite NilZero.isi.
  - simpl. now rewrite DecimalZ.of_to.
  - destruct n; simpl; try discriminate.
    intros [= E]. now apply DecimalPos.Unsigned.to_uint_nonnil in E.
  - destruct n; simpl; try discriminate.
    intros [= E]. now apply DecimalPos.Unsigned.to_uint_nonnil in E.
Qed.

#[export] Instance plain_parse : PyParse :=
  {| py_float := Plain.float_of;
     py_int := Plain.int_of;
     py_int_of_str := plain_int_of_str |}.

#[export] Instance plain_sqlite : SqliteCoerce :=
  {| real_affinity := Plain.affinity;
     text_to_real := Plain.numeric_value |}.

(* ================================================================= *)
(** ** A small shop, built with the item dialog *)

Module Sample.

(** Rice is kept in bags of 50 kg; rates B and C are left empty. *)
Definition rice_form : ItemDialog.form :=
  ItemDialog.mk (lit "Rice") (lit "R1") (lit "Grain") [] (lit "Bag")
                (lit "Kg") (lit "50") (lit "2500") [] [] (lit "2000")
                (lit "10") (lit "2") [].

(** Soap has no secondary unit. *)
Definition soap_form : ItemDialog.form :=
  ItemDialog.mk (lit "Soap") (lit "S1") [] [] (lit "Piece")
                [] [] (lit "30") (lit "28") (lit "25") (lit "20")
                (lit "100") (lit "10") [].

Definition shop : DB :=
  fst (ItemDialog.accept soap_form (fst (ItemDialog.accept rice_form init_db))).

Definition rice : Item.row :=
  Item.mk 1 (lit "Rice") (Some (lit "R1")) (Some (lit "Grain")) (Some [])
          (lit "Bag") (Some (lit "Kg")) (RReal 50%float) (RReal 2500%float)
          (RText []) (RText []) (RReal 2000%float) (RReal 10%float)
          (RReal 2%float) (Some []).

Definition soap : Item.row :=
  Item.mk 2 (lit "Soap") (Some (lit "S1")) (Some []) (Some [])
          (lit "Piece") (Some []) (RText []) (RReal 30%float)
          (RReal 28%float) (RReal 25%float) (RReal 20%float)
          (RReal 100%float) (RReal 10%float) (Some []).

(** Flour: the conversion rate is typed with a thousands separator. *)
Definition flour_form : ItemDialog.form :=
  ItemDialog.mk (lit "Flour") (lit "F1") [] [] (lit "Bag") (lit "Gram")
                (lit "1,000") (lit "40") [] [] [] (lit "5") [] [].

Definition shop_with_flour : DB := fst (ItemDialog.accept flour_form shop).

(** Sugar: the opening stock is typed with a thousands separator. *)
Definition sugar_form : ItemDialog.form :=
  ItemDialog.mk (lit "Sugar") (lit "G1") [] [] (lit "Kg") [] []
                (lit "45") [] [] [] (lit "1,000") [] [].

Definition shop_with_sugar : DB := fst (ItemDialog.accept sugar_form shop).

Definition sugar_purchase : PurchasesTab.form :=
  PurchasesTab.mk (lit "Sugar") (lit "Kg") (lit "5") (lit "40")
                  (lit "Agro Traders").

Definition flour : Item.row :=
  Item.mk 3 (lit "Flour") (Some (lit "F1")) (Some []) (Some [])
          (lit "Bag") (Some (lit "Gram")) (RText (lit "1,000"))
          (RReal 40%float) (RText []) (RText []) (RText [])
          (RReal 5%float) (RText []) (Some []).

Definition flour_purchase : PurchasesTab.form :=
  PurchasesTab.mk (lit "Flour") (lit "Gram") (lit "500") (lit "1")
                  (lit "City Mill").

Definition flour_bill : BillingTab.bill :=
  BillingTab.mk (lit "1001") (lit "Asha") (lit "01-06-2024 10:30 AM")
    [ mk_bill_item (lit "Flour") (lit "Gram") (lit "500") (lit "0.04")
                   (lit "20") ]
    (lit "500.0") (lit "20.0").

Definition sugar : Item.row :=
  Item.mk 3 (lit "Sugar") (Some (lit "G1")) (Some []) (Some [])
          (lit "Kg") (Some []) (RText []) (RReal 45%float) (RText [])
          (RText []) (RText []) (RText (lit "1,000")) (RText []) (Some []).


(** Three bags of rice are bought, then a bill sells 25 kg of rice and two
    pieces of soap. *)
Definition rice_purchase : PurchasesTab.form :=
  PurchasesTab.mk (lit "Rice") (lit "Bag") (lit "3") (lit "2000")
                  (lit "Agro Traders").

Definition rice_bill : BillingTab.bill :=
  BillingTab.mk (lit "1001") (lit "Asha") (lit "01-06-2024 10:30 AM")
    [ mk_bill_item (lit "Rice") (lit "Kg") (lit "25") (lit "50.0")
                   (lit "1250");
      mk_bill_item (lit "Soap") (lit "Piece") (lit "2") (lit "30.0")
                   (lit "60");
      mk_bill_item [] [] (lit "1") [] (lit "0") ]
    (lit "27.0") (lit "1310.0").

(** The same goods billed to another customer at another rate. *)
Definition rice_bill_other : BillingTab.bill :=
  BillingTab.mk (lit "1001") (lit "Ravi") (lit "01-06-2024 10:30 AM")
    [ mk_bill_item (lit "Rice") (lit "Kg") (lit "25") (lit "48.0")
                   (lit "1200");
      mk_bill_item (lit "Soap") (lit "Piece") (lit "2") (lit "28.0")
                   (lit "56");
      mk_bill_item [] [] (lit "1") [] (lit "0") ]
    (lit "27.0") (lit "1256.0").

Definition day : list event :=
  [ PurchaseEntry (lit "2024-06-01 09:00:00") rice_purchase;
    Sale rice_bill ].

End Sample.

(* ================================================================= *)
(** ** [update_stock]: lookup and update of item rows *)

Lemma fetch_item_none (rows : list Item.row) (item_name : pystr) :
  (forall r, In r rows -> Item.Name r <> item_name) ->
  fetch_item rows item_name = None.
Proof.
  intros Hno. unfold fetch_item.
  destruct (find _ rows) as [r|] eqn:E; [|reflexivity].
  apply find_some in E. destruct E as [Hin Hname].
  apply pystr_eqb_eq in Hname. now apply Hno in Hin.
Qed.

Lemma fetch_item_name (rows : list Item.row) (n : pystr) (r : Item.row) :
  fetch_item rows n = Some r -> Item.Name r = n.
Proof.
  intros E. apply find_some in E. now apply pystr_eqb_eq.
Qed.

Lemma fetch_add_to_stock_same `{SqliteCoerce} (rows : list Item.row)
    (n : pystr) (q : float) (r : Item.row) :
  fetch_item rows n = Some r ->
  fetch_item (add_to_stock n q rows) n
  = Some (Item.with_StockQty r (sql_plus (Item.StockQty r) q)).
Proof.
  unfold fetch_item, add_to_stock.
  induction rows as [|x rows IH]; simpl; [discriminate|].
  destruct (PyStr.eqb (Item.Name x) n) eqn:E; simpl.
  - rewrite E. now intros [= ->].
  - rewrite E. exact IH.
Qed.

Lemma fetch_add_to_stock_other `{SqliteCoerce} (rows : list Item.row)
    (m n : pystr) (q : float) :
  m <> n ->
  fetch_item (add_to_stock m q rows) n = fetch_item rows n.
Proof.
  intros Hmn. unfold fetch_item, add_to_stock.
  induction rows as [|x rows IH]; simpl; [reflexivity|].
  destruct (PyStr.eqb (Item.Name x) m) eqn:Em; simpl.
  - apply pystr_eqb_eq in Em.
    assert (En : PyStr.eqb (Item.Name x) n = false)
      by (apply pystr_eqb_neq; congruence).
    rewrite En. exact IH.
  - destruct (PyStr.eqb (Item.Name x) n); [reflexivity | exact IH].
Qed.

Lemma same_but_stock_refl (r : Item.row) : same_but_stock r r.
Proof. repeat split. Qed.

Lemma same_but_stock_with (r : Item.row) (q : real_cell) :
  same_but_stock r (Item.with_StockQty r q).
Proof. repeat split. Qed.

Lemma add_to_stock_frame `{SqliteCoerce} (rows : list Item.row)
    (n : pystr) (q : float) :
  Forall2 (fun old new =>
             same_but_stock old new /\ (Item.Name old <> n -> new = old))
          rows (add_to_stock n q rows).
Proof.
  induction rows as [|x rows IH]; simpl; constructor; [|exact IH].
  destruct (PyStr.eqb (Item.Name x) n) eqn:E.
  - apply pystr_eqb_eq in E. split; [apply same_but_stock_with|].
    intros Hne. contradiction.
  - split; [apply same_but_stock_refl | reflexivity].
Qed.

Lemma rows_frame_refl (rows : list Item.row) (n : pystr) :
  Forall2 (fun old new =>
             same_but_stock old new /\ (Item.Name old <> n -> new = old))
          rows rows.
Proof.
  induction rows; constructor; auto using same_but_stock_refl.
Qed.

(** The conversion of the code agrees with the stated one whenever the rate
    is absent or a number. *)
Lemma to_base_unit_stock_change `{PyParse} (r : Item.row) (unit : pystr)
    (q : float) :
  numeric_or_blank (Item.ConversionRate r) ->
  to_base_unit unit (Item.SecondaryUnit r) (Item.ConversionRate r) q
  = Ok (stock_change r unit q).
Proof.
  unfold to_base_unit, stock_change, numeric_or_blank.
  destruct (Item.SecondaryUnit r) as [sec|]; simpl;
    destruct (Item.ConversionRate r) as [|conv|[|c s]]; simpl;
    try contradiction; intros _;
    try rewrite andb_false_r; try reflexivity.
  unfold PyFloat.truthy, py_truediv.
  destruct (PyStr.eqb unit sec); simpl; [|reflexivity].
  destruct (PrimFloat.eqb conv PyFloat.zero); reflexivity.
Qed.

(** Whatever the cell holds, a division by zero can only come from a
    conversion rate kept as a non-empty text that [float] reads as zero: a
    rate that is [NULL], a number or blank never divides by zero. *)
Lemma to_base_unit_zero_division `{PyParse} (unit : pystr) (sec : text_cell)
    (conv : real_cell) (q : float) :
  to_base_unit unit sec conv q = Raise ZeroDivisionError ->
  exists (s : pystr) (x : float),
    conv = RText s /\ s <> [] /\ py_float s = Some x
    /\ PrimFloat.eqb x PyFloat.zero = true.
Proof.
  unfold to_base_unit.
  destruct (text_equals unit sec); simpl; [|discriminate].
  destruct conv as [|x|s]; simpl; try discriminate.
  - unfold PyFloat.truthy, py_truediv.
    destruct (PrimFloat.eqb x PyFloat.zero); simpl; discriminate.
  - destruct s as [|c s]; simpl; [discriminate|].
    destruct (py_float (c :: s)) as [x|] eqn:E; simpl; [|discriminate].
    unfold py_truediv.
    destruct (PrimFloat.eqb x PyFloat.zero) eqn:Ez; [|discriminate].
    intros _. exists (c :: s), x. repeat split; auto. discriminate.
Qed.

(** C9. Calling [update_stock] with a name that no row of [Items] has
    returns normally and leaves the whole database as it was. *)
Theorem update_stock_unknown_item `{PyParse} `{SqliteCoerce} :
  forall (db : DB) (item_name unit : pystr) (qty_change : float),
    (forall r, In r (Items db) -> Item.Name r <> item_name) ->
    update_stock item_name unit qty_change db = (db, Ok tt).
Proof.
  intros db item_name unit q Hno. unfold update_stock.
  now rewrite (fetch_item_none _ Hno).
Qed.

(** The rows of [Items] after [update_stock], against the rows before. *)
Lemma update_stock_rows `{PyParse} `{SqliteCoerce} (db : DB)
    (item_name unit : pystr) (qty_change : float) :
  Forall2 (fun old new =>
             same_but_stock old new /\
             (Item.Name old <> item_name -> new = old))
          (Items db) (Items (fst (update_stock item_name unit qty_change db))).
Proof.
  unfold update_stock.
  destruct (fetch_item (Items db) item_name) as [row|]; simpl;
    [|apply rows_frame_refl].
  destruct (to_base_unit _ _ _ _) as [dq|e]; simpl;
    [apply add_to_stock_frame | apply rows_frame_refl].
Qed.

(** [update_stock] writes to no table but [Items]. *)
Lemma update_stock_other_tables `{PyParse} `{SqliteCoerce} (db : DB)
    (item_name unit : pystr) (qty_change : float) :
  let db' := fst (update_stock item_name unit qty_change db) in
  Customers db' = Customers db /\
  Purchases db' = Purchases db /\
  StockAdjustments db' = StockAdjustments db /\
  Settings db' = Settings db /\
  BillNumbers db' = BillNumbers db /\
  seq_Items db' = seq_Items db /\
  seq_Customers db' = seq_Customers db /\
  seq_Purchases db' = seq_Purchases db /\
  seq_StockAdjustments db' = seq_StockAdjustments db.
Proof.
  unfold update_stock.
  destruct (fetch_item (Items db) item_name) as [row|]; simpl;
    [|repeat split].
  destruct (to_base_unit _ _ _ _) as [dq|e]; simpl; repeat split.
Qed.

(** C10. [update_stock] leaves every table but [Items] and every key
    counter untouched; in [Items] the rows stay in place, a row with another
    name is unchanged, and a row with the given name keeps every column but
    [StockQty]. *)
Theorem update_stock_frame `{PyParse} `{SqliteCoerce} :
  forall (db : DB) (item_name unit : pystr) (qty_change : float),
    let db' := fst (update_stock item_name unit qty_change db) in
    Customers db' = Customers db /\
    Purchases db' = Purchases db /\
    StockAdjustments db' = StockAdjustments db /\
    Settings db' = Settings db /\
    BillNumbers db' = BillNumbers db /\
    seq_Items db' = seq_Items db /\
    seq_Customers db' = seq_Customers db /\
    seq_Purchases db' = seq_Purchases db /\
    seq_StockAdjustments db' = seq_StockAdjustments db /\
    Forall2 (fun old new =>
               same_but_stock old new /\
               (Item.Name old <> item_name -> new = old))
            (Items db) (Items db').
Proof.
  intros db item_name unit q db'.
  destruct (update_stock_other_tables db item_name unit q)
    as (HC & HP & HA & HS & HB & S1 & S2 & S3 & S4).
  repeat split; try assumption.
  apply update_stock_rows.
Qed.

(** On an existing item whose conversion rate is absent or a number,
    [update_stock] returns normally (so it does not divide by zero) and the
    item's row afterwards differs from the one before in [StockQty] only,
    which is the SQL sum of the old value and the change: [q /
    ConversionRate] when the unit is the secondary unit and the rate is a
    number other than zero, [q] in every other case. *)
Lemma update_stock_converts `{PyParse} `{SqliteCoerce} :
  forall (db : DB) (item_name unit : pystr) (q : float) (r : Item.row),
    fetch_item (Items db) item_name = Some r ->
    numeric_or_blank (Item.ConversionRate r) ->
    exists (dq : float) (db' : DB) (r' : Item.row),
      update_stock item_name unit q db = (db', Ok tt) /\
      fetch_item (Items db') item_name = Some r' /\
      Item.StockQty r' = sql_plus (Item.StockQty r) dq /\
      same_but_stock r r' /\
      (forall conv,
          Item.SecondaryUnit r = Some unit ->
          Item.ConversionRate r = RReal conv ->
          PrimFloat.eqb conv PyFloat.zero = false ->
          dq = PrimFloat.div q conv) /\
      (Item.SecondaryUnit r <> Some unit -> dq = q) /\
      (Item.ConversionRate r = RNull -> dq = q) /\
      (Item.ConversionRate r = RText [] -> dq = q) /\
      (forall conv,
          Item.ConversionRate r = RReal conv ->
          PrimFloat.eqb conv PyFloat.zero = true -> dq = q).
Proof.
  intros db item_name unit q r Hfetch Hconv.
  exists (stock_change r unit q).
  exists (with_Items db (add_to_stock item_name (stock_change r unit q)
                                      (Items db))).
  exists (Item.with_StockQty r
            (sql_plus (Item.StockQty r) (stock_change r unit q))).
  split; [|split; [|split; [|split]]].
  - unfold update_stock. rewrite Hfetch.
    now rewrite (to_base_unit_stock_change r unit q Hconv).
  - simpl. now apply fetch_add_to_stock_same.
  - reflexivity.
  - apply same_but_stock_with.
  - unfold stock_change. repeat split.
    + intros conv Hsec Hrate Hnz. rewrite Hsec, Hrate, Hnz.
      now rewrite pystr_eqb_refl.
    + intros Hsec. destruct (Item.SecondaryUnit r) as [sec|]; [|reflexivity].
      destruct (Item.ConversionRate r); try reflexivity.
      assert (E : PyStr.eqb unit sec = false)
        by (apply pystr_eqb_neq; congruence).
      now rewrite E.
    + intros ->. now destruct (Item.SecondaryUnit r).
    + intros ->. now destruct (Item.SecondaryUnit r).
    + intros conv -> Hz. rewrite Hz. simpl.
      destruct (Item.SecondaryUnit r); [|reflexivity].
      now rewrite andb_false_r.
Qed.

(** The sample shop holds the two rows the dialog stored. *)
Lemma sample_shop_items : Items Sample.shop = [Sample.rice; Sample.soap].
Proof. vm_compute. reflexivity. Qed.

Lemma update_stock_unknown_item_witness :
  update_stock (lit "Sugar") (lit "Kg") 5%float Sample.shop
  = (Sample.shop, Ok tt).
Proof.
  apply update_stock_unknown_item.
  intros r Hin. rewrite sample_shop_items in Hin.
  destruct Hin as [<- | [<- | []]]; discriminate.
Defined.

Example update_stock_rice_in_kg :
  exists (db' : DB) (r' : Item.row),
    update_stock (lit "Rice") (lit "Kg") 25%float Sample.shop = (db', Ok tt)
    /\ fetch_item (Items db') (lit "Rice") = Some r'
    /\ Item.StockQty r' = RReal 10.5%float
    /\ same_but_stock Sample.rice r'.
Proof.
  destruct (update_stock_converts Sample.shop (lit "Rice") (lit "Kg")
              25%float (r := Sample.rice) eq_refl I)
    as (dq & db' & r' & Hrun & Hrow & Hstock & Hsame & Hsec & _).
  exists db', r'. repeat split; try assumption; try apply Hsame.
  rewrite Hstock. now rewrite (Hsec 50%float eq_refl eq_refl eq_refl).
Qed.

(* ================================================================= *)
(** ** [get_next_bill_no]: the bill counter *)

Lemma fetch_setting_key (rows : list Setting.row) (k : pystr)
    (r : Setting.row) :
  fetch_setting rows k = Some r -> Setting.Key r = k.
Proof.
  intros E. apply find_some in E. now apply pystr_eqb_eq.
Qed.

Lemma fetch_set_setting (rows : list Setting.row) (k v : pystr)
    (r : Setting.row) :
  fetch_setting rows k = Some r ->
  fetch_setting (set_setting k v rows) k = Some (Setting.mk k (Some v)).
Proof.
  unfold fetch_setting, set_setting.
  induction rows as [|x rows IH]; simpl; [discriminate|].
  destruct (PyStr.eqb (Setting.Key x) k) eqn:E; simpl; rewrite E.
  - intros _. apply pystr_eqb_eq in E. now rewrite E.
  - exact IH.
Qed.

Lemma set_setting_frame (rows : list Setting.row) (k v : pystr) :
  Forall2 (fun old new =>
             Setting.Key new = Setting.Key old /\
             (Setting.Key old <> k -> new = old))
          rows (set_setting k v rows).
Proof.
  induction rows as [|x rows IH]; simpl; constructor; [|exact IH].
  destruct (PyStr.eqb (Setting.Key x) k) eqn:E; simpl.
  - apply pystr_eqb_eq in E. split; [reflexivity | contradiction].
  - split; reflexivity.
Qed.

(** One call, from a counter that reads as the integer [n]. *)
Lemma get_next_bill_no_step `{PyParse} (db : DB) (row : Setting.row)
    (text : pystr) (n : Z) :
  fetch_setting (Settings db) LastBillNo_key = Some row ->
  Setting.Value row = Some text ->
  py_int text = Some n ->
  get_next_bill_no db
  = (with_Settings db (set_setting LastBillNo_key (PyStr.of_int (n + 1))
                                   (Settings db)),
     Ok (n + 1)%Z).
Proof.
  intros Hrow Hval Hint. unfold get_next_bill_no.
  now rewrite Hrow, Hval, Hint.
Qed.

Lemma bill_numbers_count `{PyParse} (k : nat) :
  forall (db : DB) (row : Setting.row) (text : pystr) (n : Z),
    fetch_setting (Settings db) LastBillNo_key = Some row ->
    Setting.Value row = Some text ->
    py_int text = Some n ->
    fst (bill_numbers k db)
    = map (fun i => Ok (n + Z.of_nat i)%Z) (seq 1 k).
Proof.
  induction k as [|k IH]; intros db row text n Hrow Hval Hint;
    [reflexivity|].
  cbn [bill_numbers].
  rewrite (get_next_bill_no_step db Hrow Hval Hint).
  set (db1 := with_Settings db _).
  specialize (IH db1 (Setting.mk LastBillNo_key (Some (PyStr.of_int (n + 1))))
                 (PyStr.of_int (n + 1)) (n + 1)%Z).
  destruct (bill_numbers k db1) as [rs db2]. simpl in *.
  rewrite IH.
  - f_equal.
    rewrite <- (seq_shift k 1), map_map. apply map_ext. intros i. f_equal. lia.
  - eapply fetch_set_setting. exact Hrow.
  - reflexivity.
  - apply py_int_of_str.
Qed.

(** C2. When the stored [LastBillNo] reads as the integer [n], a call
    returns [n + 1] and stores the text of [n + 1] in that row and in no
    other; reading the counter back gives [n + 1], and [k] successive calls
    return [n + 1], [n + 2], ..., [n + k]. *)
Theorem get_next_bill_no_sequential `{PyParse} :
  forall (db : DB) (row : Setting.row) (text : pystr) (n : Z),
    fetch_setting (Settings db) LastBillNo_key = Some row ->
    Setting.Value row = Some text ->
    py_int text = Some n ->
    exists db' : DB,
      get_next_bill_no db = (db', Ok (n + 1)%Z) /\
      fetch_setting (Settings db') LastBillNo_key
      = Some (Setting.mk LastBillNo_key (Some (PyStr.of_int (n + 1)))) /\
      py_int (PyStr.of_int (n + 1)) = Some (n + 1)%Z /\
      Forall2 (fun old new =>
                 Setting.Key new = Setting.Key old /\
                 (Setting.Key old <> LastBillNo_key -> new = old))
              (Settings db) (Settings db') /\
      forall k : nat,
        fst (bill_numbers k db)
        = map (fun i => Ok (n + Z.of_nat i)%Z) (seq 1 k).
Proof.
  intros db row text n Hrow Hval Hint.
  eexists. split; [exact (get_next_bill_no_step db Hrow Hval Hint)|].
  simpl. repeat split.
  - eapply fetch_set_setting. exact Hrow.
  - apply py_int_of_str.
  - apply set_setting_frame.
  - intros k. exact (bill_numbers_count k db Hrow Hval Hint).
Qed.

Lemma get_next_bill_no_sequential_witness :
  get_next_bill_no init_db
  = (with_Settings init_db [Setting.mk LastBillNo_key (Some (lit "1001"))],
     Ok 1001%Z)
  /\ fst (bill_numbers 3 init_db) = [Ok 1001%Z; Ok 1002%Z; Ok 1003%Z].
Proof.
  assert (Hint : py_int (lit "1000") = Some 1000%Z) by reflexivity.
  destruct (get_next_bill_no_sequential init_db
              (row := Setting.mk LastBillNo_key (Some (lit "1000")))
              eq_refl eq_refl Hint)
    as (db' & Hcall & _ & _ & _ & Hmany).
  split.
  - reflexivity.
  - exact (Hmany 3%nat).
Defined.

(* ================================================================= *)
(** ** Required fields of the dialogs *)

(** C7. An empty required field makes [accept] show the validation warning
    and return: the dialog is not accepted and the database is the one
    before the call.  The required fields are the name, base unit and rate A
    of the item dialog, the name of the customer dialog, and the quantity
    and reason of the stock adjustment dialog. *)
Theorem required_fields_atomic `{PyParse} `{SqliteCoerce} :
  (forall (f : ItemDialog.form) (db : DB),
      ItemDialog.name f = [] \/ ItemDialog.baseunit f = []
      \/ ItemDialog.ratea f = [] ->
      ItemDialog.accept f db = (db, Rejected)) /\
  (forall (f : CustomerDialog.form) (db : DB),
      CustomerDialog.name f = [] ->
      CustomerDialog.accept f db = (db, Rejected)) /\
  (forall (now : pystr) (f : StockAdjustDialog.form) (db : DB),
      StockAdjustDialog.qty f = [] \/ StockAdjustDialog.reason f = [] ->
      StockAdjustDialog.accept now f db = (db, Rejected)).
Proof.
  repeat split.
  - intros f db [E | [E | E]]; unfold ItemDialog.accept; rewrite E; simpl;
      try reflexivity.
    + now rewrite orb_true_r.
    + now rewrite orb_true_r.
  - intros f db E. unfold CustomerDialog.accept. now rewrite E.
  - intros now f db [E | E]; unfold StockAdjustDialog.accept; rewrite E;
      simpl; try reflexivity.
    now rewrite orb_true_r.
Qed.

Lemma required_fields_atomic_witness :
  ItemDialog.accept
    (ItemDialog.mk (lit "Salt") (lit "S9") [] [] (lit "Kg") [] [] [] [] []
                   [] [] [] [])
    Sample.shop
  = (Sample.shop, Rejected)
  /\ CustomerDialog.accept (CustomerDialog.mk [] (lit "29ABC") (lit "North"))
                           Sample.shop
     = (Sample.shop, Rejected)
  /\ StockAdjustDialog.accept (lit "2024-06-01 10:00:00")
       (StockAdjustDialog.mk (lit "Rice") (lit "-1") (lit "Bag") [])
       Sample.shop
     = (Sample.shop, Rejected).
Proof.
  destruct (@required_fields_atomic plain_parse plain_sqlite)
    as (Hitem & Hcust & Hadj).
  split; [|split].
  - apply Hitem. right. right. reflexivity.
  - apply Hcust. reflexivity.
  - apply Hadj. right. reflexivity.
Defined.

(* ================================================================= *)
(** ** [print_receipt]: the fixed-width layout *)

Lemma length_ljust_take (n : nat) (s : pystr) :
  List.length (ljust n (take n s)) = n.
Proof.
  unfold ljust, take. rewrite length_app, repeat_length, length_firstn. lia.
Qed.

Lemma length_rjust_take (n : nat) (s : pystr) :
  List.length (rjust n (take n s)) = n.
Proof.
  unfold rjust, take. rewrite length_app, repeat_length, length_firstn. lia.
Qed.

Lemma length_item_line (it : bill_item) : List.length (item_line it) = 44.
Proof.
  unfold item_line. cbv zeta.
  rewrite !length_app, !length_ljust_take, !length_rjust_take. reflexivity.
Qed.

(** C8. The receipt is eight heading lines, one line for each billed item
    in order, and five closing lines; its separators (lines 1, 3, 6 and 8 of
    the heading, lines 1, 3 and 5 of the closing) are 48 dashes each.  An
    item line is the name cut to 16 characters and filled with spaces on the
    right, the unit likewise to 6, and the quantity, rate and total cut to
    6, 8 and 8 and filled on the left; the five fields have exactly these
    widths and the line 44 characters, whatever the lengths of the texts. *)
Theorem print_receipt_fixed_width :
  forall (bill_no customer date : pystr) (items : list bill_item)
         (totalqty grand : pystr),
    let dashes := repeat 45%N 48 in
    (exists title header date_line columns totals thanks : pystr,
        print_receipt bill_no customer date items totalqty grand
        = [dashes; title; dashes; header; date_line; dashes; columns; dashes]
          ++ map item_line items
          ++ [dashes; totals; dashes; thanks; dashes]) /\
    List.length dashes = 48 /\
    Forall (fun it =>
              let name := firstn 16 (bi_item it) in
              let unit := firstn 6 (bi_unit it) in
              let qty := firstn 6 (bi_qty it) in
              let rate := firstn 8 (bi_rate it) in
              let total := firstn 8 (bi_total it) in
              let name_field := name ++ repeat 32%N (16 - List.length name) in
              let unit_field := unit ++ repeat 32%N (6 - List.length unit) in
              let qty_field := repeat 32%N (6 - List.length qty) ++ qty in
              let rate_field := repeat 32%N (8 - List.length rate) ++ rate in
              let total_field :=
                repeat 32%N (8 - List.length total) ++ total in
              item_line it
              = name_field ++ unit_field ++ qty_field ++ rate_field
                ++ total_field /\
              List.length name_field = 16 /\ List.length unit_field = 6 /\
              List.length qty_field = 6 /\ List.length rate_field = 8 /\
              List.length total_field = 8 /\
              List.length (item_line it) = 44)
           items.
Proof.
  intros bill_no customer date items totalqty grand dashes.
  split; [|split].
  - unfold print_receipt, receipt_head, receipt_foot. repeat eexists.
  - reflexivity.
  - apply Forall_forall. intros it _. cbv zeta.
    split; [reflexivity|].
    repeat split.
    + apply (length_ljust_take 16).
    + apply (length_ljust_take 6).
    + apply (length_rjust_take 6).
    + apply (length_rjust_take 8).
    + apply (length_rjust_take 8).
    + apply length_item_line.
Qed.

(* ================================================================= *)
(** ** [ItemDialog.accept]: the stored row *)


Lemma named_stored `{SqliteCoerce} (id : Z) (f : ItemDialog.form) :
  ItemDialog.named (ItemDialog.name f) (ItemDialog.stored id f) = true.
Proof. unfold ItemDialog.named. simpl. apply pystr_eqb_refl. Qed.


Lemma update_rows_keys `{SqliteCoerce} (f : ItemDialog.form)
    (rows : list Item.row) :
  map Item.ItemID (ItemDialog.update_rows f rows) = map Item.ItemID rows
  /\ map Item.Name (ItemDialog.update_rows f rows) = map Item.Name rows.
Proof.
  unfold ItemDialog.update_rows.
  induction rows as [|x rows [IHid IHname]]; simpl; [now split|].
  rewrite IHid, IHname.
  destruct (ItemDialog.named (ItemDialog.name f) x) eqn:E; simpl;
    [|now split].
  apply pystr_eqb_eq in E. now rewrite E.
Qed.






(* ================================================================= *)
(** ** Stock and transactions *)

Lemma stock_change_with (r : Item.row) (s : real_cell) (unit : pystr)
    (q : float) :
  stock_change (Item.with_StockQty r s) unit q = stock_change r unit q.
Proof. reflexivity. Qed.

(** What a completed [update_stock] on the item [m] does to the row fetched
    under the name [n]. *)
Lemma update_stock_fetch `{PyParse} `{SqliteCoerce} (db db1 : DB)
    (m unit n : pystr) (q : float) (r0 : Item.row) :
  update_stock m unit q db = (db1, Ok tt) ->
  fetch_item (Items db) n = Some r0 ->
  numeric_or_blank (Item.ConversionRate r0) ->
  fetch_item (Items db1) n
  = Some (if PyStr.eqb m n
          then Item.with_StockQty r0
                 (sql_plus (Item.StockQty r0) (stock_change r0 unit q))
          else r0).
Proof.
  intros Hrun Hfetch Hconv. unfold update_stock in Hrun.
  destruct (PyStr.eqb m n) eqn:E.
  - apply pystr_eqb_eq in E. subst m. rewrite Hfetch in Hrun.
    rewrite (to_base_unit_stock_change r0 unit q Hconv) in Hrun.
    injection Hrun as <-. simpl. now apply fetch_add_to_stock_same.
  - apply pystr_eqb_neq in E.
    destruct (fetch_item (Items db) m) as [row|].
    + destruct (to_base_unit _ _ _ _) as [dq|e]; [|discriminate].
      injection Hrun as <-. simpl.
      now rewrite fetch_add_to_stock_other.
    + injection Hrun as <-. exact Hfetch.
Qed.

Lemma billed_spec `{PyParse} (it : bill_item) (b : bool) :
  BillingTab.billed it = Ok b ->
  b = match billed_qty it with Some _ => true | None => false end.
Proof.
  unfold BillingTab.billed, billed_qty, float_of_text.
  destruct (bi_item it) as [|c s]; simpl; [now intros [= <-]|].
  destruct (bi_qty it) as [|c' s'] eqn:Eq; simpl; [now intros [= <-]|].
  destruct (py_float (c' :: s')) as [q|]; simpl; [|discriminate].
  intros [= <-]. now destruct (PrimFloat.ltb PyFloat.zero q).
Qed.

Lemma billed_qty_float `{PyParse} (it : bill_item) (q : float) :
  billed_qty it = Some q -> float_of_text (bi_qty it) = Ok q.
Proof.
  unfold billed_qty, float_of_text.
  destruct (bi_item it); [discriminate|].
  destruct (bi_qty it) as [|c' s']; [discriminate|].
  destruct (py_float (c' :: s')) as [x|]; [|discriminate].
  destruct (PrimFloat.ltb PyFloat.zero x); [|discriminate].
  now intros [= ->].
Qed.

(** The gathered lines are the lines that count, in order. *)
Lemma gather_billed `{PyParse} (rows items : list bill_item) :
  BillingTab.gather rows = Ok items ->
  Forall (fun it => billed_qty it <> None) items
  /\ forall r, line_changes r items = line_changes r rows.
Proof.
  revert items. induction rows as [|it rows IH]; simpl; intros items.
  - intros [= <-]. split; [constructor | reflexivity].
  - destruct (BillingTab.billed it) as [keep|] eqn:Eb; simpl; [|discriminate].
    destruct (BillingTab.gather rows) as [rest|]; simpl; [|discriminate].
    intros [= <-]. destruct (IH rest eq_refl) as [Hall Hsame].
    apply billed_spec in Eb. unfold line_changes in *.
    destruct (billed_qty it) as [q|] eqn:Eq; subst keep.
    + split.
      * constructor; [congruence | exact Hall].
      * intros r. simpl. now rewrite ?Eq, Hsame.
    + split; [exact Hall|]. intros r. simpl. now rewrite ?Eq, Hsame.
Qed.

Lemma sell_fetch `{PyParse} `{SqliteCoerce} (r : Item.row)
    (items : list bill_item) :
  numeric_or_blank (Item.ConversionRate r) ->
  Forall (fun it => billed_qty it <> None) items ->
  forall (db db1 : DB) (s : real_cell),
    BillingTab.sell items db = (db1, Ok tt) ->
    fetch_item (Items db) (Item.Name r) = Some (Item.with_StockQty r s) ->
    fetch_item (Items db1) (Item.Name r)
    = Some (Item.with_StockQty r
              (fold_left sql_plus (line_changes r items) s)).
Proof.
  intros Hconv Hall. induction Hall as [|it items Hq _ IH];
    intros db db1 s; simpl.
  - now intros [= <-].
  - destruct (billed_qty it) as [q|] eqn:Eq; [|contradiction].
    rewrite (billed_qty_float it Eq).
    destruct (update_stock _ _ _ db) as [db2 [[]|e]] eqn:Eu;
      [|discriminate].
    intros Hsell Hfetch.
    pose proof (update_stock_fetch _ _ _ _ _ Eu Hfetch Hconv) as Hstep.
    unfold line_changes in *. simpl. revert Hstep.
    destruct (PyStr.eqb (bi_item it) (Item.Name r)); simpl; intros Hstep.
    + exact (IH db2 db1 _ Hsell Hstep).
    + exact (IH db2 db1 _ Hsell Hstep).
Qed.

Lemma get_next_bill_no_items `{PyParse} (db : DB) :
  Items (fst (get_next_bill_no db)) = Items db.
Proof.
  unfold get_next_bill_no.
  destruct (fetch_setting _ _) as [row|]; [|reflexivity].
  destruct (Setting.Value row) as [text|]; [|reflexivity].
  now destruct (py_int text).
Qed.

Lemma complete_fetch `{PyParse} `{SqliteCoerce} (r : Item.row) (e : event)
    (db db1 : DB) (s : real_cell) :
  numeric_or_blank (Item.ConversionRate r) ->
  complete e db = Some db1 ->
  fetch_item (Items db) (Item.Name r) = Some (Item.with_StockQty r s) ->
  fetch_item (Items db1) (Item.Name r)
  = Some (Item.with_StockQty r (fold_left sql_plus (changes r e) s)).
Proof.
  intros Hconv Hrun Hfetch. destruct e as [b | now f]; simpl in *.
  - unfold BillingTab.print_and_finish in Hrun.
    destruct (BillingTab.gather (BillingTab.rows b)) as [items|] eqn:Eg;
      [|discriminate].
    destruct (gather_billed _ Eg) as [Hall Hsame].
    destruct (BillingTab.sell items db) as [db2 [[]|e]] eqn:Es;
      [|discriminate].
    pose proof (get_next_bill_no_items db2) as Hitems.
    destruct (get_next_bill_no db2) as [db3 [no|e]]; [|discriminate].
    injection Hrun as <-. simpl in Hitems. rewrite Hitems, <- Hsame.
    eapply sell_fetch; eassumption.
  - unfold PurchasesTab.add_stock, float_of_text in Hrun.
    destruct (negb _ || negb _ || negb _); [discriminate|].
    destruct (py_float (PurchasesTab.qty f)) as [q|]; [|discriminate].
    destruct (update_stock _ _ _ db) as [db2 [[]|e]] eqn:Eu;
      [|discriminate].
    destruct (fetch_item_id _ _); [|discriminate].
    injection Hrun as <-. simpl.
    rewrite (update_stock_fetch _ _ _ _ _ Eu Hfetch Hconv).
    now destruct (PyStr.eqb (PurchasesTab.item f) (Item.Name r)).
Qed.

(** Let [r] be the row of an item whose conversion rate is absent or a
    number.  After any sequence of completed bills and purchase entries the
    item's row differs from [r] in [StockQty] only, which is the opening
    cell plus, by SQL [+] and in order, the changes of its transactions:
    minus the billed quantity for each bill line, plus the purchased
    quantity for each purchase, each converted to the base unit. *)
Lemma stock_in_sync `{PyParse} `{SqliteCoerce} :
  forall (events : list event) (db db' : DB) (r : Item.row),
    fetch_item (Items db) (Item.Name r) = Some r ->
    numeric_or_blank (Item.ConversionRate r) ->
    run events db = Some db' ->
    exists r' : Item.row,
      fetch_item (Items db') (Item.Name r) = Some r' /\
      Item.StockQty r'
      = fold_left sql_plus (ledger r events) (Item.StockQty r) /\
      same_but_stock r r'.
Proof.
  intros events db db' r Hfetch Hconv Hrun.
  assert (Hrow : fetch_item (Items db') (Item.Name r)
                 = Some (Item.with_StockQty r
                           (fold_left sql_plus (ledger r events)
                                      (Item.StockQty r)))).
  { assert (Hstart : fetch_item (Items db) (Item.Name r)
                     = Some (Item.with_StockQty r (Item.StockQty r)))
      by (rewrite Hfetch; now destruct r).
    clear Hfetch. revert db Hstart Hrun. generalize (Item.StockQty r) as s.
    induction events as [|e events IH]; intros s db Hstart; simpl.
    - now intros [= <-].
    - destruct (complete e db) as [db1|] eqn:Ee; [|discriminate].
      intros Hrun. unfold ledger in *. simpl. rewrite fold_left_app.
      apply (IH _ db1); [|exact Hrun].
      eapply complete_fetch; eassumption. }
  eexists. split; [exact Hrow|]. split; [reflexivity|].
  apply same_but_stock_with.
Qed.

Example stock_after_a_day :
  exists (db' : DB) (rice' soap' : Item.row),
    run Sample.day Sample.shop = Some db'
    /\ fetch_item (Items db') (lit "Rice") = Some rice'
    /\ Item.StockQty rice' = RReal 12.5%float
    /\ fetch_item (Items db') (lit "Soap") = Some soap'
    /\ Item.StockQty soap' = RReal 98%float.
Proof.
  destruct (run Sample.day Sample.shop) as [db'|] eqn:Erun;
    [|discriminate Erun].
  destruct (stock_in_sync Sample.day Sample.shop (r := Sample.rice)
                          eq_refl I Erun) as (rice' & Hr & Hrs & _).
  destruct (stock_in_sync Sample.day Sample.shop (r := Sample.soap)
                          eq_refl I Erun) as (soap' & Hs & Hss & _).
  exists db', rice', soap'. repeat split; assumption.
Qed.

(* ================================================================= *)
(** ** What a bill and a purchase entry leave in the database *)

Lemma Forall2_same {A} (R : A -> A -> Prop) :
  (forall a, R a a) -> forall l, Forall2 R l l.
Proof. intros HR l. induction l; constructor; auto. Qed.

Lemma Forall2_chain {A} (R : A -> A -> Prop) :
  (forall a b c, R a b -> R b c -> R a c) ->
  forall l1 l2 l3, Forall2 R l1 l2 -> Forall2 R l2 l3 -> Forall2 R l1 l3.
Proof.
  intros HR l1 l2 l3 H12. revert l3.
  induction H12 as [|a b l1 l2 Hab _ IH]; intros l3 H23;
    inversion H23; subst; constructor; eauto.
Qed.

Lemma same_but_stock_trans (a b c : Item.row) :
  same_but_stock a b -> same_but_stock b c -> same_but_stock a c.
Proof. unfold same_but_stock. intuition congruence. Qed.

Lemma only_stock_and_counter_refl (db : DB) : only_stock_and_counter db db.
Proof.
  unfold only_stock_and_counter. repeat split.
  - apply Forall2_same, same_but_stock_refl.
  - apply Forall2_same. now split.
Qed.

Lemma only_stock_and_counter_trans (a b c : DB) :
  only_stock_and_counter a b -> only_stock_and_counter b c ->
  only_stock_and_counter a c.
Proof.
  unfold only_stock_and_counter.
  intros (C1 & P1 & A1 & B1 & S1 & S2 & S3 & S4 & I1 & K1)
         (C2 & P2 & A2 & B2 & T1 & T2 & T3 & T4 & I2 & K2).
  repeat split; try congruence.
  - exact (Forall2_chain same_but_stock_trans I1 I2).
  - refine (Forall2_chain _ K1 K2).
    intros x y z [Kxy Hxy] [Kyz Hyz]. split; [congruence|].
    intros Hne. rewrite Hyz, Hxy; congruence.
Qed.

Lemma update_stock_only_stock `{PyParse} `{SqliteCoerce} (db : DB)
    (item_name unit : pystr) (q : float) :
  only_stock_and_counter db (fst (update_stock item_name unit q db)).
Proof.
  destruct (update_stock_other_tables db item_name unit q)
    as (HC & HP & HA & HS & HB & S1 & S2 & S3 & S4).
  pose proof (update_stock_rows db item_name unit q) as Hrows.
  unfold only_stock_and_counter. repeat split; try assumption.
  - eapply Forall2_impl; [|exact Hrows]. now intros a b [Hab _].
  - rewrite HS. apply Forall2_same. now split.
Qed.

Lemma sell_only_stock `{PyParse} `{SqliteCoerce} (items : list bill_item) :
  forall db : DB, only_stock_and_counter db (fst (BillingTab.sell items db)).
Proof.
  induction items as [|it items IH]; intros db; simpl.
  - apply only_stock_and_counter_refl.
  - destruct (float_of_text (bi_qty it)) as [q|e];
      [|apply only_stock_and_counter_refl].
    pose proof (update_stock_only_stock db (bi_item it) (bi_unit it)
                                        (PyFloat.neg q)) as Hstep.
    destruct (update_stock _ _ _ db) as [db1 [[]|e]]; simpl in Hstep.
    + eapply only_stock_and_counter_trans; [exact Hstep | apply IH].
    + exact Hstep.
Qed.

Lemma get_next_bill_no_only_counter `{PyParse} (db : DB) :
  only_stock_and_counter db (fst (get_next_bill_no db)).
Proof.
  unfold get_next_bill_no.
  destruct (fetch_setting _ _) as [row|];
    [|apply only_stock_and_counter_refl].
  destruct (Setting.Value row) as [text|];
    [|apply only_stock_and_counter_refl].
  destruct (py_int text) as [n|]; [|apply only_stock_and_counter_refl].
  unfold only_stock_and_counter. simpl. repeat split.
  - apply Forall2_same, same_but_stock_refl.
  - apply set_setting_frame.
Qed.

Lemma print_and_finish_only_stock `{PyParse} `{SqliteCoerce}
    (b : BillingTab.bill) (db : DB) :
  only_stock_and_counter db (fst (BillingTab.print_and_finish b db)).
Proof.
  unfold BillingTab.print_and_finish.
  destruct (BillingTab.gather (BillingTab.rows b)) as [items|e];
    [|apply only_stock_and_counter_refl].
  pose proof (sell_only_stock items db) as Hsell.
  destruct (BillingTab.sell items db) as [db1 [[]|e]]; simpl in Hsell;
    [|exact Hsell].
  pose proof (get_next_bill_no_only_counter db1) as Hno.
  destruct (get_next_bill_no db1) as [db2 [no|e]]; simpl in Hno |- *;
    eapply only_stock_and_counter_trans; eassumption.
Qed.

Lemma add_stock_logs `{PyParse} `{SqliteCoerce} (now : pystr)
    (f : PurchasesTab.form) (db : DB) (r : Item.row) (q : float) :
  PurchasesTab.item f <> [] ->
  PurchasesTab.unit f <> [] ->
  PurchasesTab.qty f <> [] ->
  py_float (PurchasesTab.qty f) = Some q ->
  fetch_item (Items db) (PurchasesTab.item f) = Some r ->
  numeric_or_blank (Item.ConversionRate r) ->
  exists (db' : DB) (id : Z),
    PurchasesTab.add_stock now f db = (db', Done) /\
    Purchases db'
    = Purchases db
      ++ [Purchase.mk id (Some now) (Some (PurchasesTab.supplier f))
                      (Item.ItemID r) (Some (PurchasesTab.unit f))
                      (real_affinity (PurchasesTab.qty f))
                      (real_affinity (PurchasesTab.rate f))].
Proof.
  intros Hitem Hunit Hqty Hq Hfetch Hconv.
  unfold PurchasesTab.add_stock, float_of_text.
  destruct (PurchasesTab.item f) as [|c1 s1] eqn:E1; [contradiction|].
  destruct (PurchasesTab.unit f) as [|c2 s2] eqn:E2; [contradiction|].
  destruct (PurchasesTab.qty f) as [|c3 s3] eqn:E3; [contradiction|].
  simpl. rewrite Hq. unfold update_stock. rewrite Hfetch.
  rewrite (to_base_unit_stock_change r (c2 :: s2) q Hconv).
  unfold fetch_item_id. simpl.
  rewrite (fetch_add_to_stock_same _ _ _ Hfetch). simpl.
  do 2 eexists. split; [reflexivity|]. simpl.
  unfold PurchasesTab.logged. now rewrite E2, E3.
Qed.

(** C4, as stated, fails: two different bills (another customer, other
    rates and totals) are both completed and leave the same database, in
    which [Purchases], [StockAdjustments] and [Customers] are empty: nothing
    stored tells which sale took place. *)
Lemma sale_leaves_no_record :
  Sample.rice_bill <> Sample.rice_bill_other /\
  exists (db' : DB) (receipt receipt' : list pystr) (next_no : Z),
    BillingTab.print_and_finish Sample.rice_bill Sample.shop
    = (db', BillingTab.Finished receipt next_no) /\
    BillingTab.print_and_finish Sample.rice_bill_other Sample.shop
    = (db', BillingTab.Finished receipt' next_no) /\
    receipt <> receipt' /\
    Purchases db' = [] /\ StockAdjustments db' = [] /\ Customers db' = [] /\
    BillNumbers db' = [] /\
    map Setting.Key (Settings db') = [LastBillNo_key].
Proof.
  split; [discriminate|].
  do 4 eexists.
  split; [vm_compute; reflexivity|].
  split; [vm_compute; reflexivity|].
  split; [discriminate|].
  repeat split.
Qed.

(* ================================================================= *)
(** ** The rate list of the billing row *)




(** The preview of the item dialog tolerates empty rate fields: for the
    rice form it shows rate A in the secondary unit and leaves the labels
    of the empty rates B and C empty. *)
Lemma converted_rates_blank_tiers `{PyFloatFmt} :
  ItemDialog.update_converted_rates Sample.rice_form
  = (lit "Kg: " ++ py_str_float (py_round2 50%float), [], []).
Proof. reflexivity. Qed.

(** C5 at an item the item dialog stored with rates B and C left empty
    (the rice of the sample shop, 50 kg to the bag).  The empty fields are
    stored as empty texts, not as [NULL].  With the secondary unit selected
    the billing row raises [TypeError] on rate B and offers no rate at all;
    with the base unit selected it offers the empty tiers B and C as rates
    without a value. *)
Theorem rates_blank_tier_type_error `{PyFloatFmt} :
  Item.RateB Sample.rice = RText [] /\
  fetch_item (Items Sample.shop) (lit "Rice") = Some Sample.rice /\
  BillingTab.offered_rates Sample.shop (lit "Rice") (lit "Kg")
  = Some (Raise TypeError) /\
  BillingTab.offered_rates Sample.shop (lit "Rice") (lit "Bag")
  = Some (Ok [ lit "Rate A: " ++ [rupee] ++ py_str_float 2500%float;
               lit "Rate B: " ++ [rupee];
               lit "Rate C: " ++ [rupee] ]).
Proof.
  repeat split.
Qed.

(* ================================================================= *)
(** ** The model on concrete inputs *)

(** A name longer than its column is cut, the other fields are padded. *)
Example item_line_long_name :
  item_line (mk_bill_item (lit "Basmati Rice Premium 5kg") (lit "Packet")
                          (lit "2") (lit "450.0") (lit "900"))
  = lit "Basmati Rice PrePacket     2   450.0     900".
Proof. reflexivity. Qed.

(** A purchase in bags adds the quantity as it is; a sale in kilograms
    takes a fiftieth of the quantity per kilogram. *)
Example rice_bought_in_bags :
  option_map Item.StockQty
    (fetch_item
       (Items (fst (update_stock (lit "Rice") (lit "Bag") 3%float
                                 Sample.shop)))
       (lit "Rice"))
  = Some (RReal 13%float).
Proof. reflexivity. Qed.

Example rice_sold_in_kg :
  option_map Item.StockQty
    (fetch_item
       (Items (fst (update_stock (lit "Rice") (lit "Kg") (-25)%float
                                 Sample.shop)))
       (lit "Rice"))
  = Some (RReal 9.5%float).
Proof. reflexivity. Qed.

(** Soap was saved with an empty conversion rate: no division takes
    place, whatever the unit. *)
Example soap_blank_rate :
  let after := update_stock (lit "Soap") [] 5%float Sample.shop in
  snd after = Ok tt /\
  map Item.StockQty (Items (fst after)) = [RReal 10%float; RReal 105%float].
Proof. split; reflexivity. Qed.

(** A purchase of an item that is not in [Items] raises before the row is
    logged. *)
Example purchase_of_unknown_item :
  PurchasesTab.add_stock (lit "2024-06-01 09:00:00")
    (PurchasesTab.mk (lit "Sugar") (lit "Kg") (lit "5") (lit "40") [])
    Sample.shop
  = (Sample.shop, Raised TypeError).
Proof. reflexivity. Qed.

(* ================================================================= *)
(** * More of the program *)

(* ================================================================= *)
(** ** [init_db] on a file that exists, and the loaders of the dialogs *)

(** A file in which no table has a row yet. *)
Definition empty_db : DB := mkDB [] [] [] [] [] [] 0 0 0 0.

(** [init_db] when the tables may exist: [CREATE TABLE IF NOT EXISTS] does
    nothing to them, and [INSERT OR IGNORE] adds the ['LastBillNo'] row only
    when the primary key [Key] has no such row. *)
Definition init_db_existing (db : DB) : DB :=
  match fetch_setting (Settings db) LastBillNo_key with
  | Some _ => db
  | None =>
      with_Settings db
        (Settings db ++ [Setting.mk LastBillNo_key (Some (lit "1000"))])
  end.

(** [x or ""] for a value read from a [TEXT] column. *)
Definition or_blank (c : text_cell) : pystr :=
  match c with
  | Some s => s
  | None => []
  end.

(** [str(x or "")] for a value read from a [REAL] column: [None], zero and
    the empty text give the empty text. *)
Definition real_or_blank `{PyFloatFmt} (c : real_cell) : pystr :=
  match c with
  | RNull => []
  | RReal x => if PyFloat.truthy x then py_str_float x else []
  | RText s => s
  end.

(** [c.fetchone()] after [SELECT Name, GSTIN, Area FROM Customers WHERE
    Name=?]. *)
Definition fetch_customer (rows : list Customer.row) (name : pystr)
  : option Customer.row :=
  find (CustomerDialog.named name) rows.

(** [CustomerDialog.load_customer]: the texts of the dialog after the call,
    [shown] being the texts before it. *)
Definition load_customer (db : DB) (name : pystr)
    (shown : CustomerDialog.form) : CustomerDialog.form :=
  match fetch_customer (Customers db) name with
  | Some r =>
      CustomerDialog.mk (Customer.Name r) (or_blank (Customer.GSTIN r))
                        (or_blank (Customer.Area r))
  | None => shown
  end.

(** [ItemDialog.load_item], likewise. *)
Definition load_item `{PyFloatFmt} (db : DB) (name : pystr)
    (shown : ItemDialog.form) : ItemDialog.form :=
  match fetch_item (Items db) name with
  | Some r =>
      ItemDialog.mk (Item.Name r) (or_blank (Item.Code r))
        (or_blank (Item.Category r)) (or_blank (Item.HSN r))
        (Item.BaseUnit r) (or_blank (Item.SecondaryUnit r))
        (real_or_blank (Item.ConversionRate r))
        (real_or_blank (Item.RateA r)) (real_or_blank (Item.RateB r))
        (real_or_blank (Item.RateC r)) (real_or_blank (Item.PurchaseRate r))
        (real_or_blank (Item.StockQty r)) (real_or_blank (Item.AlertLevel r))
        (or_blank (Item.ImagePath r))
  | None => shown
  end.

(* ================================================================= *)
(** ** The states the application can bring the database to *)

(** From the new file, by starting the application again ([init_db]), by
    opening the billing tab or finishing a bill (the bill counter), and by
    the four forms that write. *)
Inductive reachable `{PyParse} `{SqliteCoerce} : DB -> Prop :=
| reach_new : reachable init_db
| reach_start (db : DB) :
    reachable db -> reachable (init_db_existing db)
| reach_bill_no (db : DB) :
    reachable db -> reachable (fst (get_next_bill_no db))
| reach_item (f : ItemDialog.form) (db : DB) :
    reachable db -> reachable (fst (ItemDialog.accept f db))
| reach_customer (f : CustomerDialog.form) (db : DB) :
    reachable db -> reachable (fst (CustomerDialog.accept f db))
| reach_adjust (now : pystr) (f : StockAdjustDialog.form) (db : DB) :
    reachable db -> reachable (fst (StockAdjustDialog.accept now f db))
| reach_purchase (now : pystr) (f : PurchasesTab.form) (db : DB) :
    reachable db -> reachable (fst (PurchasesTab.add_stock now f db))
| reach_bill (b : BillingTab.bill) (db : DB) :
    reachable db -> reachable (fst (BillingTab.print_and_finish b db)).

(** The keys of a table are distinct, and so are the names that the
    dialogs look rows up by and the item codes. *)
Definition items_distinct (db : DB) : Prop :=
  NoDup (map Item.Name (Items db)) /\
  NoDup (map Item.Code (Items db)) /\
  NoDup (map Item.ItemID (Items db)).

Definition customers_distinct (db : DB) : Prop :=
  NoDup (map Customer.Name (Customers db)) /\
  NoDup (map Customer.CustomerID (Customers db)).

(** Every logged purchase and adjustment is of an item of [Items]. *)
Definition logs_refer_to_items (db : DB) : Prop :=
  Forall (fun p => In (Purchase.ItemID p) (map Item.ItemID (Items db)))
         (Purchases db) /\
  Forall (fun a => In (StockAdjustment.ItemID a)
                      (map Item.ItemID (Items db)))
         (StockAdjustments db).

(** The lines of a bill that count, in order. *)
Definition billed_lines `{PyParse} (rows : list bill_item) : list bill_item :=
  filter (fun it => match billed_qty it with Some _ => true | None => false end)
         rows.

(** The tiers of an item that are not [NULL]. *)
Definition tiers_present (r : Item.row) : nat :=
  List.length
    (filter (fun c => negb (is_none c))
            [Item.RateA r; Item.RateB r; Item.RateC r]).

(** [str(x)] as Python prints the numbers of the sample shop; on these
    numbers [round(x, 2)] is [x]. *)
Definition sample_str (x : float) : pystr :=
  if PrimFloat.eqb x 50%float then lit "50.0"
  else if PrimFloat.eqb x 2500%float then lit "2500.0"
  else if PrimFloat.eqb x 2000%float then lit "2000.0"
  else if PrimFloat.eqb x 10%float then lit "10.0"
  else if PrimFloat.eqb x 2%float then lit "2.0"
  else [].

Definition sample_fmt : PyFloatFmt :=
  {| py_round2 := fun x => x; py_str_float := sample_str |}.

(** The bill counter is the one row of [Settings] and holds the text of an
    integer from 1000 on. *)
Definition counter_ok (db : DB) : Prop :=
  exists n : Z,
    (1000 <= n)%Z /\
    Settings db = [Setting.mk LastBillNo_key (Some (PyStr.of_int n))].

Definition consistent (db : DB) : Prop :=
  counter_ok db /\ items_distinct db /\ customers_distinct db
  /\ logs_refer_to_items db.

(** What one operation may do, as far as consistency goes. *)
Definition careful_step `{PyParse} (db db' : DB) : Prop :=
  (Settings db' = Settings db
   \/ Settings db' = Settings (fst (get_next_bill_no db))) /\
  (items_distinct db -> items_distinct db') /\
  incl (map Item.ItemID (Items db)) (map Item.ItemID (Items db')) /\
  (customers_distinct db -> customers_distinct db') /\
  (exists ps, Purchases db' = Purchases db ++ ps /\
              Forall (fun p => In (Purchase.ItemID p)
                                  (map Item.ItemID (Items db'))) ps) /\
  (exists adjs, StockAdjustments db' = StockAdjustments db ++ adjs /\
                Forall (fun a => In (StockAdjustment.ItemID a)
                                    (map Item.ItemID (Items db'))) adjs).

(** [float(val) if val not in ("", None) else 0] *)
Definition cell_or_zero `{PyParse} (c : real_cell) : result float :=
  match c with
  | RNull => Ok PyFloat.zero
  | RReal x => Ok x
  | RText [] => Ok PyFloat.zero
  | RText s => float_of_text s
  end.

(** [StockTab.load_stock]: whether the stock cell of the row gets the red
    background; an exception in the test is passed over. *)
Definition low_stock `{PyParse} (r : Item.row) : bool :=
  match cell_or_zero (Item.StockQty r) with
  | Ok stock_qty =>
      match cell_or_zero (Item.AlertLevel r) with
      | Ok alert_level => PrimFloat.leb stock_qty alert_level
      | Raise _ => false
      end
  | Raise _ => false
  end.

Definition absent (c : real_cell) : Prop := c = RNull \/ c = RText [].

(* ================================================================= *)
(** ** Fresh keys and appended rows *)

Lemma next_rowid_above (seq : Z) (ids : list Z) :
  (seq < next_rowid seq ids)%Z
  /\ forall id, In id ids -> (id < next_rowid seq ids)%Z.
Proof.
  unfold next_rowid. induction ids as [|x ids [IHseq IHids]]; simpl.
  - split; [lia | intros id []].
  - split; [lia|]. intros id [<- | Hin]; [lia|].
    specialize (IHids id Hin). lia.
Qed.

Lemma next_rowid_fresh (seq : Z) (ids : list Z) :
  ~ In (next_rowid seq ids) ids.
Proof.
  intros Hin. apply (proj2 (next_rowid_above seq ids)) in Hin. lia.
Qed.

Lemma NoDup_snoc {A} (l : list A) (x : A) :
  NoDup l -> ~ In x l -> NoDup (l ++ [x]).
Proof.
  intros Hl Hx. apply NoDup_app; [exact Hl | repeat constructor; intros [] |].
  intros a Ha [<- | []]. contradiction.
Qed.

Lemma find_snoc {A} (p : A -> bool) (l : list A) (x : A) :
  existsb p l = false ->
  find p (l ++ [x]) = if p x then Some x else None.
Proof.
  induction l as [|a l IH]; simpl; [reflexivity|].
  destruct (p a); simpl; [discriminate | exact IH].
Qed.

Lemma find_map_update {A} (p : A -> bool) (upd : A -> A) (l : list A) :
  (forall a, p a = true -> p (upd a) = true) ->
  existsb p l = true ->
  exists a, find p l = Some a
            /\ find p (map (fun a => if p a then upd a else a) l)
               = Some (upd a).
Proof.
  intros Hupd. induction l as [|x l IH]; simpl; [discriminate|].
  destruct (p x) eqn:E; simpl.
  - intros _. exists x. rewrite (Hupd x E). now split.
  - rewrite E. exact IH.
Qed.

Lemma filter_map_update_others {A} (p : A -> bool) (upd : A -> A)
    (l : list A) :
  (forall a, p a = true -> p (upd a) = true) ->
  filter (fun a => negb (p a)) (map (fun a => if p a then upd a else a) l)
  = filter (fun a => negb (p a)) l.
Proof.
  intros Hupd. induction l as [|x l IH]; simpl; [reflexivity|].
  destruct (p x) eqn:E; simpl.
  - rewrite (Hupd x E). simpl. exact IH.
  - rewrite E. simpl. now rewrite IH.
Qed.

Lemma existsb_false_not_in {A B} (key : A -> B) (p : A -> bool) (k : B)
    (l : list A) :
  (forall a, key a = k -> p a = true) ->
  existsb p l = false -> ~ In k (map key l).
Proof.
  intros Hp Hex Hin. apply in_map_iff in Hin. destruct Hin as (a & Hk & Ha).
  assert (E : existsb p l = true)
    by (apply existsb_exists; exists a; split; [exact Ha | now apply Hp]).
  congruence.
Qed.

(* ================================================================= *)
(** ** [CustomerDialog]: save and load *)

Lemma customer_named_iff (n : pystr) (r : Customer.row) :
  CustomerDialog.named n r = true <-> Customer.Name r = n.
Proof. apply pystr_eqb_eq. Qed.

Lemma customer_named_new (id : Z) (n : pystr) (g a : text_cell) :
  CustomerDialog.named n (Customer.mk id n g a) = true.
Proof. apply pystr_eqb_refl. Qed.

(** The row a save leaves under the name. *)
Lemma customer_saved_row (f : CustomerDialog.form) (db : DB) :
  CustomerDialog.name f <> [] ->
  exists id : Z,
    fetch_customer (Customers (fst (CustomerDialog.accept f db)))
                   (CustomerDialog.name f)
    = Some (Customer.mk id (CustomerDialog.name f)
                        (Some (CustomerDialog.gstin f))
                        (Some (CustomerDialog.area f))).
Proof.
  intros Hname. unfold CustomerDialog.accept, fetch_customer.
  destruct (PyStr.truthy (CustomerDialog.name f)) eqn:Et;
    [|destruct (CustomerDialog.name f); [contradiction | discriminate]].
  cbn [negb].
  destruct (existsb (CustomerDialog.named (CustomerDialog.name f))
                    (Customers db)) eqn:Ex; cbn [fst Customers].
  - destruct (find_map_update
                (CustomerDialog.named (CustomerDialog.name f))
                (fun r => Customer.mk (Customer.CustomerID r)
                            (Customer.Name r)
                            (Some (CustomerDialog.gstin f))
                            (Some (CustomerDialog.area f)))
                (Customers db)) as (r & Hr & Hfind);
      [now intros a Ha | exact Ex |].
    rewrite Hfind. apply find_some in Hr. destruct Hr as [_ Hr].
    apply customer_named_iff in Hr. rewrite Hr. now eexists.
  - rewrite (find_snoc _ _ _ Ex), customer_named_new. now eexists.
Qed.

(** X1. A customer saved with a name that is not empty is read back as
    saved: [load_customer] under that name shows the three texts the dialog
    held at [accept], whatever it showed before and whether the customer was
    new or not. *)
Theorem customer_saved_then_loaded :
  forall (f shown : CustomerDialog.form) (db : DB),
    CustomerDialog.name f <> [] ->
    load_customer (fst (CustomerDialog.accept f db)) (CustomerDialog.name f)
                  shown
    = f.
Proof.
  intros f shown db Hname. unfold load_customer.
  destruct (customer_saved_row f db Hname) as [id Hrow].
  rewrite Hrow. simpl. now destruct f.
Qed.

Lemma customer_saved_then_loaded_witness :
  load_customer
    (fst (CustomerDialog.accept
            (CustomerDialog.mk (lit "Asha") (lit "29ABCDE1234F1Z5")
                               (lit "North"))
            Sample.shop))
    (lit "Asha") (CustomerDialog.mk [] [] [])
  = CustomerDialog.mk (lit "Asha") (lit "29ABCDE1234F1Z5") (lit "North").
Proof.
  apply (customer_saved_then_loaded
           (CustomerDialog.mk (lit "Asha") (lit "29ABCDE1234F1Z5")
                              (lit "North"))).
  discriminate.
Defined.

(** X2. With a name that is not empty the customer dialog is always
    accepted (it never meets the unique index, as it looks the name up
    first); it writes to no other table, and the customers of other names
    are, in order, as they were. *)
Theorem customer_accept_total_and_local :
  forall (f : CustomerDialog.form) (db : DB),
    CustomerDialog.name f <> [] ->
    let db' := fst (CustomerDialog.accept f db) in
    snd (CustomerDialog.accept f db) = Done /\
    Items db' = Items db /\
    Purchases db' = Purchases db /\
    StockAdjustments db' = StockAdjustments db /\
    Settings db' = Settings db /\
    BillNumbers db' = BillNumbers db /\
    filter (fun r => negb (CustomerDialog.named (CustomerDialog.name f) r))
           (Customers db')
    = filter (fun r => negb (CustomerDialog.named (CustomerDialog.name f) r))
             (Customers db).
Proof.
  intros f db Hname. unfold CustomerDialog.accept.
  destruct (PyStr.truthy (CustomerDialog.name f)) eqn:Et;
    [|destruct (CustomerDialog.name f); [contradiction | discriminate]].
  cbn [negb].
  destruct (existsb (CustomerDialog.named (CustomerDialog.name f))
                    (Customers db)) eqn:Ex;
    cbn [fst snd Items Customers Purchases StockAdjustments Settings
         BillNumbers]; repeat split.
  - now apply (filter_map_update_others
                 (CustomerDialog.named (CustomerDialog.name f))).
  - rewrite filter_app. cbn [filter]. rewrite customer_named_new.
    cbn [negb]. apply app_nil_r.
Qed.

Lemma customer_accept_total_and_local_witness :
  snd (CustomerDialog.accept
         (CustomerDialog.mk (lit "Asha") [] (lit "North")) Sample.shop)
  = Done.
Proof.
  apply (customer_accept_total_and_local
           (CustomerDialog.mk (lit "Asha") [] (lit "North")) Sample.shop).
  discriminate.
Defined.

Lemma customer_accept_distinct (f : CustomerDialog.form) (db : DB) :
  customers_distinct db ->
  customers_distinct (fst (CustomerDialog.accept f db)).
Proof.
  intros [Hnames Hids]. unfold CustomerDialog.accept, customers_distinct.
  destruct (negb (PyStr.truthy (CustomerDialog.name f))); [now split|].
  destruct (existsb (CustomerDialog.named (CustomerDialog.name f))
                    (Customers db)) eqn:Ex; simpl.
  - rewrite !map_map.
    rewrite (map_ext _ Customer.Name), (map_ext _ Customer.CustomerID);
      [now split | |];
      intros r; now destruct (CustomerDialog.named _ r).
  - rewrite !map_app. simpl. split.
    + apply NoDup_snoc; [exact Hnames|].
      apply (existsb_false_not_in Customer.Name
               (CustomerDialog.named (CustomerDialog.name f)));
        [|exact Ex].
      intros a Ha. now apply customer_named_iff.
    + apply NoDup_snoc; [exact Hids | apply next_rowid_fresh].
Qed.

(** X3. Saving a customer keeps the customer names distinct and the
    customer keys distinct, and when the name is not empty the table then
    has exactly one customer of that name. *)
Theorem customer_accept_keeps_names_distinct :
  forall (f : CustomerDialog.form) (db : DB),
    customers_distinct db ->
    let db' := fst (CustomerDialog.accept f db) in
    customers_distinct db' /\
    (CustomerDialog.name f <> [] ->
     List.length
       (filter (CustomerDialog.named (CustomerDialog.name f)) (Customers db'))
     = 1%nat).
Proof.
  intros f db Hok db'. split; [now apply customer_accept_distinct|].
  intros Hname.
  pose proof (customer_accept_distinct f Hok) as [Hnames _]. fold db' in Hnames.
  assert (Hin : In (CustomerDialog.name f) (map Customer.Name (Customers db'))).
  { destruct (customer_saved_row f db Hname) as (id & Hr).
    apply find_some in Hr. destruct Hr as [Hin _].
    apply in_map_iff. eexists. split; [|exact Hin]. reflexivity. }
  clear - Hnames Hin.
  induction (Customers db') as [|x l IH]; simpl in *; [contradiction|].
  inversion Hnames as [|? ? Hx Hl]; subst.
  destruct (CustomerDialog.named (CustomerDialog.name f) x) eqn:E; simpl.
  - apply customer_named_iff in E. f_equal.
    rewrite E in Hx.
    clear - Hx. induction l as [|y l IH]; simpl in *; [reflexivity|].
    destruct (CustomerDialog.named (CustomerDialog.name f) y) eqn:Ey.
    + apply customer_named_iff in Ey. exfalso. apply Hx. now left.
    + apply IH. intros H. apply Hx. now right.
  - destruct Hin as [Hin | Hin].
    + apply customer_named_iff in Hin. congruence.
    + now apply IH.
Qed.

Lemma customer_accept_keeps_names_distinct_witness :
  customers_distinct
    (fst (CustomerDialog.accept
            (CustomerDialog.mk (lit "Asha") [] (lit "North")) Sample.shop)).
Proof.
  apply (customer_accept_keeps_names_distinct
           (CustomerDialog.mk (lit "Asha") [] (lit "North")) (db := Sample.shop)).
  split; constructor.
Defined.

(* ================================================================= *)
(** ** [ItemDialog]: what a save can and cannot do *)

Lemma item_named_iff (n : pystr) (r : Item.row) :
  ItemDialog.named n r = true <-> Item.Name r = n.
Proof. apply pystr_eqb_eq. Qed.

Lemma has_code_iff (c : pystr) (r : Item.row) :
  ItemDialog.has_code c r = true <-> Item.Code r = Some c.
Proof. apply text_equals_iff. Qed.

Lemma NoDup_filter_key {A B} (key : A -> B) (p : A -> bool) (k : B)
    (l : list A) :
  (forall a, p a = true <-> key a = k) ->
  NoDup (map key l) -> (List.length (filter p l) <= 1)%nat.
Proof.
  intros Hp. induction l as [|x l IH]; simpl; [lia|].
  intros Hnd. inversion Hnd as [|? ? Hx Hl]; subst.
  destruct (p x) eqn:E; [|now apply IH].
  simpl. apply Hp in E.
  assert (Hnone : filter p l = []).
  { clear IH Hl Hnd. induction l as [|y l IH]; simpl in *; [reflexivity|].
    destruct (p y) eqn:Ey.
    - apply Hp in Ey. exfalso. apply Hx. left. congruence.
    - apply IH. intros H. apply Hx. now right. }
  rewrite Hnone. simpl. lia.
Qed.

Lemma NoDup_map_update {A B} (p : A -> bool) (h : A -> B) (v : B)
    (l : list A) :
  NoDup (map h l) ->
  (List.length (filter p l) < 2)%nat ->
  (forall a, In a l -> p a = false -> h a <> v) ->
  NoDup (map (fun a => if p a then v else h a) l).
Proof.
  induction l as [|x l IH]; simpl; intros Hnd Hone Hv; [constructor|].
  inversion Hnd as [|? ? Hx Hl]; subst.
  destruct (p x) eqn:E; simpl in Hone.
  - assert (Hnone : forall a, In a l -> p a = false).
    { intros a Ha. destruct (p a) eqn:Ea; [|reflexivity].
      assert (Hin : In a (filter p l)) by (apply filter_In; now split).
      destruct (filter p l); [contradiction | simpl in Hone; lia]. }
    rewrite (map_ext_in _ h) by (intros a Ha; now rewrite (Hnone a Ha)).
    constructor; [|exact Hl].
    intros Hin. apply in_map_iff in Hin. destruct Hin as (a & Ha & Hal).
    apply (Hv a); auto.
  - constructor.
    + intros Hin. apply in_map_iff in Hin. destruct Hin as (a & Ha & Hal).
      destruct (p a) eqn:Ea.
      * apply (Hv x); auto.
      * apply Hx. apply in_map_iff. now exists a.
    + apply IH; auto.
Qed.

Lemma map_code_update_rows `{SqliteCoerce} (f : ItemDialog.form)
    (rows : list Item.row) :
  map Item.Code (ItemDialog.update_rows f rows)
  = map (fun r => if ItemDialog.named (ItemDialog.name f) r
                  then Some (ItemDialog.code f) else Item.Code r) rows.
Proof.
  unfold ItemDialog.update_rows. rewrite map_map. apply map_ext.
  intros r. now destruct (ItemDialog.named _ r).
Qed.

Lemma item_accept_distinct `{SqliteCoerce} (f : ItemDialog.form) (db : DB) :
  items_distinct db -> items_distinct (fst (ItemDialog.accept f db)).
Proof.
  intros (Hnames & Hcodes & Hids). unfold ItemDialog.accept.
  destruct (negb _ || negb _ || negb _); [now repeat split|].
  destruct (existsb (ItemDialog.named (ItemDialog.name f)) (Items db))
    eqn:Ex.
  - destruct (ItemDialog.update_conflict f (Items db)) eqn:Ec;
      [now repeat split|].
    unfold items_distinct. cbn [fst Items with_Items].
    destruct (update_rows_keys f (Items db)) as [Hid Hname].
    rewrite Hid, Hname, map_code_update_rows.
    repeat split; try assumption.
    unfold ItemDialog.update_conflict in Ec.
    apply orb_false_iff in Ec. destruct Ec as [Eother Etwo].
    apply Nat.leb_gt in Etwo.
    apply NoDup_map_update; [exact Hcodes | exact Etwo |].
    intros a Ha Hna Hcode.
    assert (E : existsb
                  (fun r => negb (ItemDialog.named (ItemDialog.name f) r)
                            && ItemDialog.has_code (ItemDialog.code f) r)
                  (Items db) = true).
    { apply existsb_exists. exists a. split; [exact Ha|].
      rewrite Hna. simpl. now apply has_code_iff. }
    congruence.
  - destruct (ItemDialog.insert_conflict f (Items db)) eqn:Ec;
      [now repeat split|].
    unfold items_distinct. cbn [fst Items]. rewrite !map_app. simpl.
    repeat split; apply NoDup_snoc; try assumption.
    + apply (existsb_false_not_in Item.Name
               (ItemDialog.named (ItemDialog.name f))); [|exact Ex].
      intros a Ha. now apply item_named_iff.
    + apply (existsb_false_not_in Item.Code
               (ItemDialog.has_code (ItemDialog.code f))); [|exact Ec].
      intros a Ha. now apply has_code_iff.
    + apply next_rowid_fresh.
Qed.

(** X4. Saving an item keeps the item names distinct, the item codes
    distinct and the item keys distinct, whatever the form holds and
    whether the save is accepted or not. *)
Theorem item_accept_keeps_distinct `{SqliteCoerce} :
  forall (f : ItemDialog.form) (db : DB),
    items_distinct db -> items_distinct (fst (ItemDialog.accept f db)).
Proof. intros f db. apply item_accept_distinct. Qed.

Lemma item_accept_keeps_distinct_witness :
  items_distinct (fst (ItemDialog.accept Sample.soap_form
                         (fst (ItemDialog.accept Sample.rice_form init_db)))).
Proof.
  apply (item_accept_keeps_distinct Sample.soap_form).
  apply (item_accept_keeps_distinct Sample.rice_form (db := init_db)).
  repeat split; constructor.
Defined.

(** X5. While item names are distinct, a save with the required fields
    filled in fails exactly when an item of another name already has the
    code of the form, the empty code included: then the warning is shown
    and the database is as before; otherwise the dialog is accepted. *)
Theorem item_accept_fails_on_code_in_use `{SqliteCoerce} :
  forall (f : ItemDialog.form) (db : DB),
    NoDup (map Item.Name (Items db)) ->
    ItemDialog.name f <> [] ->
    ItemDialog.baseunit f <> [] ->
    ItemDialog.ratea f <> [] ->
    ((exists r, In r (Items db) /\ Item.Name r <> ItemDialog.name f
                /\ Item.Code r = Some (ItemDialog.code f)) ->
     ItemDialog.accept f db = (db, Failed IntegrityError)) /\
    ((forall r, In r (Items db) -> Item.Name r <> ItemDialog.name f ->
                Item.Code r <> Some (ItemDialog.code f)) ->
     snd (ItemDialog.accept f db) = Done).
Proof.
  intros f db Hnames Hn Hb Ha. unfold ItemDialog.accept.
  destruct (ItemDialog.name f) as [|c1 s1] eqn:En; [contradiction|].
  destruct (ItemDialog.baseunit f) as [|c2 s2]; [contradiction|].
  destruct (ItemDialog.ratea f) as [|c3 s3]; [contradiction|].
  cbn [PyStr.truthy negb orb]. rewrite <- En in *. clear Hn Hb Ha.
  assert (Hone : (2 <=? List.length
                          (filter (ItemDialog.named (ItemDialog.name f))
                                  (Items db)))%nat = false).
  { apply Nat.leb_gt.
    pose proof (@NoDup_filter_key _ _ Item.Name
                  (ItemDialog.named (ItemDialog.name f)) (ItemDialog.name f)
                  (Items db) (fun a => item_named_iff _ a) Hnames).
    lia. }
  split.
  - intros (r & Hin & Hname & Hcode).
    assert (Hnr : ItemDialog.named (ItemDialog.name f) r = false).
    { destruct (ItemDialog.named (ItemDialog.name f) r) eqn:E;
        [|reflexivity].
      apply item_named_iff in E. contradiction. }
    apply has_code_iff in Hcode.
    destruct (existsb (ItemDialog.named (ItemDialog.name f)) (Items db)).
    + unfold ItemDialog.update_conflict.
      assert (E : existsb
                    (fun r => negb (ItemDialog.named (ItemDialog.name f) r)
                              && ItemDialog.has_code (ItemDialog.code f) r)
                    (Items db) = true).
      { apply existsb_exists. exists r. split; [exact Hin|].
        now rewrite Hnr, Hcode. }
      now rewrite E.
    + unfold ItemDialog.insert_conflict.
      assert (E : existsb (ItemDialog.has_code (ItemDialog.code f))
                          (Items db) = true)
        by (apply existsb_exists; now exists r).
      now rewrite E.
  - intros Hfree.
    assert (Eother : existsb
                       (fun r => negb (ItemDialog.named (ItemDialog.name f) r)
                                 && ItemDialog.has_code (ItemDialog.code f) r)
                       (Items db) = false).
    { destruct (existsb _ (Items db)) eqn:E; [|reflexivity].
      apply existsb_exists in E. destruct E as (r & Hin & Hr).
      apply andb_true_iff in Hr. destruct Hr as [Hnr Hcode].
      apply has_code_iff in Hcode. exfalso.
      apply (Hfree r Hin); [|exact Hcode].
      intros Hname. apply item_named_iff in Hname.
      rewrite Hname in Hnr. discriminate. }
    destruct (existsb (ItemDialog.named (ItemDialog.name f)) (Items db))
      eqn:Ex.
    + unfold ItemDialog.update_conflict. now rewrite Eother, Hone.
    + unfold ItemDialog.insert_conflict.
      destruct (existsb (ItemDialog.has_code (ItemDialog.code f)) (Items db))
        eqn:E; [|reflexivity].
      apply existsb_exists in E. destruct E as (r & Hin & Hcode).
      apply has_code_iff in Hcode. exfalso.
      apply (Hfree r Hin); [|exact Hcode].
      intros Hname.
      assert (E : existsb (ItemDialog.named (ItemDialog.name f)) (Items db)
                  = true).
      { apply existsb_exists. exists r. split; [exact Hin|].
        now apply item_named_iff. }
      congruence.
Qed.

Lemma item_accept_fails_on_code_in_use_witness :
  ItemDialog.accept
    (ItemDialog.mk (lit "Salt") (lit "R1") [] [] (lit "Kg") [] []
                   (lit "20") [] [] [] [] [] [])
    Sample.shop
  = (Sample.shop, Failed IntegrityError).
Proof.
  assert (Hnames : NoDup (map Item.Name (Items Sample.shop))).
  { rewrite sample_shop_items. repeat constructor; simpl; intuition discriminate. }
  apply (item_accept_fails_on_code_in_use
           (ItemDialog.mk (lit "Salt") (lit "R1") [] [] (lit "Kg") [] []
                          (lit "20") [] [] [] [] [] [])
           Sample.shop Hnames); try discriminate.
  exists Sample.rice. rewrite sample_shop_items.
  split; [now left|]. split; [discriminate | reflexivity].
Defined.

(** The rows of [Items] after a save, against the rows before. *)
Lemma item_accept_rows `{SqliteCoerce} (f : ItemDialog.form) (db : DB) :
  exists added : list Item.row,
    map Item.ItemID (Items (fst (ItemDialog.accept f db)))
    = map Item.ItemID (Items db) ++ map Item.ItemID added /\
    map Item.Name (Items (fst (ItemDialog.accept f db)))
    = map Item.Name (Items db) ++ map Item.Name added /\
    (List.length added <= 1)%nat.
Proof.
  assert (Hsame : forall rows : list Item.row,
             map Item.ItemID rows = map Item.ItemID rows ++ map Item.ItemID []
             /\ map Item.Name rows = map Item.Name rows ++ map Item.Name []
             /\ (List.length (@nil Item.row) <= 1)%nat)
    by (intros rows; simpl; rewrite !app_nil_r; auto).
  unfold ItemDialog.accept.
  destruct (negb _ || negb _ || negb _); [exists []; apply Hsame|].
  destruct (existsb _ (Items db)).
  - destruct (ItemDialog.update_conflict f (Items db));
      [exists []; apply Hsame|].
    exists []. cbn [fst Items with_Items].
    destruct (update_rows_keys f (Items db)) as [Hid Hname].
    rewrite Hid, Hname. apply Hsame.
  - destruct (ItemDialog.insert_conflict f (Items db));
      [exists []; apply Hsame|].
    exists [ItemDialog.stored
              (next_rowid (seq_Items db) (map Item.ItemID (Items db))) f].
    cbn [fst Items]. rewrite !map_app. simpl. auto.
Qed.

(** X6. A save in the item dialog writes to no table but [Items]; there it
    neither removes nor reorders rows, changes no key and no name, and adds
    at most one row, at the end. *)
Theorem item_accept_local `{SqliteCoerce} :
  forall (f : ItemDialog.form) (db : DB),
    let db' := fst (ItemDialog.accept f db) in
    Customers db' = Customers db /\
    Purchases db' = Purchases db /\
    StockAdjustments db' = StockAdjustments db /\
    Settings db' = Settings db /\
    BillNumbers db' = BillNumbers db /\
    exists added : list Item.row,
      map Item.ItemID (Items db')
      = map Item.ItemID (Items db) ++ map Item.ItemID added /\
      map Item.Name (Items db')
      = map Item.Name (Items db) ++ map Item.Name added /\
      (List.length added <= 1)%nat.
Proof.
  intros f db db'. repeat split; try apply item_accept_rows;
    subst db'; unfold ItemDialog.accept;
    destruct (negb _ || negb _ || negb _); try reflexivity;
    destruct (existsb _ (Items db));
    try (destruct (ItemDialog.update_conflict f (Items db)); reflexivity);
    destruct (ItemDialog.insert_conflict f (Items db)); reflexivity.
Qed.

(** The row an accepted save leaves under the name. *)
Lemma item_saved_row `{SqliteCoerce} (f : ItemDialog.form) (db db' : DB) :
  ItemDialog.accept f db = (db', Done) ->
  exists id : Z,
    fetch_item (Items db') (ItemDialog.name f)
    = Some (ItemDialog.stored id f).
Proof.
  unfold ItemDialog.accept.
  destruct (negb _ || negb _ || negb _); [discriminate|].
  destruct (existsb (ItemDialog.named (ItemDialog.name f)) (Items db))
    eqn:Ex.
  - destruct (ItemDialog.update_conflict f (Items db)); [discriminate|].
    intros [= <-]. simpl.
    destruct (find_map_update (ItemDialog.named (ItemDialog.name f))
                (fun r => ItemDialog.stored (Item.ItemID r) f) (Items db))
      as (r & Hr & Hfind); [|exact Ex|].
    + intros a _. apply named_stored.
    + eexists. exact Hfind.
  - destruct (ItemDialog.insert_conflict f (Items db)); [discriminate|].
    intros [= <-]. simpl. eexists. unfold fetch_item.
    change (fun r : Item.row => PyStr.eqb (Item.Name r) (ItemDialog.name f))
      with (ItemDialog.named (ItemDialog.name f)).
    now rewrite (find_snoc _ _ _ Ex), named_stored.
Qed.

(** X7. After an accepted save, [load_item] under the saved name shows the
    name, code, category, HSN, base unit, secondary unit and image path as
    they were typed.  A numeric field is shown as SQLite keeps it: a text it
    kept as text comes back as typed (an empty field comes back empty), a
    number comes back as [str] prints it, and the number zero comes back as
    the empty text. *)
Theorem item_saved_then_loaded `{PyFloatFmt} `{SqliteCoerce} :
  forall (f shown : ItemDialog.form) (db db' : DB),
    ItemDialog.accept f db = (db', Done) ->
    let g := load_item db' (ItemDialog.name f) shown in
    let reads typed text :=
      match real_affinity typed with
      | RText s => s = typed -> text = typed
      | RReal x =>
          text = if PrimFloat.eqb x PyFloat.zero then [] else py_str_float x
      | RNull => text = []
      end in
    ItemDialog.name g = ItemDialog.name f /\
    ItemDialog.code g = ItemDialog.code f /\
    ItemDialog.category g = ItemDialog.category f /\
    ItemDialog.hsn g = ItemDialog.hsn f /\
    ItemDialog.baseunit g = ItemDialog.baseunit f /\
    ItemDialog.secondaryunit g = ItemDialog.secondaryunit f /\
    ItemDialog.imagepath g = ItemDialog.imagepath f /\
    reads (ItemDialog.conversion f) (ItemDialog.conversion g) /\
    reads (ItemDialog.ratea f) (ItemDialog.ratea g) /\
    reads (ItemDialog.rateb f) (ItemDialog.rateb g) /\
    reads (ItemDialog.ratec f) (ItemDialog.ratec g) /\
    reads (ItemDialog.purchaserate f) (ItemDialog.purchaserate g) /\
    reads (ItemDialog.stockqty f) (ItemDialog.stockqty g) /\
    reads (ItemDialog.alertlevel f) (ItemDialog.alertlevel g).
Proof.
  intros f shown db db' Hsave g reads.
  destruct (item_saved_row f db Hsave) as [id Hrow].
  subst g. unfold load_item. rewrite Hrow. simpl.
  assert (Hreads : forall typed,
             reads typed (real_or_blank (real_affinity typed))).
  { intros typed. subst reads. cbv beta. unfold real_or_blank.
    destruct (real_affinity typed) as [|x|s]; [reflexivity| |congruence].
    unfold PyFloat.truthy.
    now destruct (PrimFloat.eqb x PyFloat.zero). }
  repeat split; apply Hreads.
Qed.

Lemma item_saved_then_loaded_witness :
  let g := @load_item sample_fmt
             (fst (ItemDialog.accept Sample.rice_form init_db)) (lit "Rice")
             (ItemDialog.mk [] [] [] [] [] [] [] [] [] [] [] [] [] []) in
  ItemDialog.code g = lit "R1" /\
  ItemDialog.conversion g = lit "50.0" /\
  ItemDialog.rateb g = [].
Proof.
  pose proof (@item_saved_then_loaded sample_fmt plain_sqlite
                Sample.rice_form
                (ItemDialog.mk [] [] [] [] [] [] [] [] [] [] [] [] [] [])
                init_db _ eq_refl)
    as (_ & Hcode & _ & _ & _ & _ & _ & Hconv & _ & Hrateb & _).
  cbv zeta. split; [exact Hcode|]. split; [exact Hconv|].
  exact (Hrateb eq_refl).
Defined.

(* ================================================================= *)
(** ** Purchase entries and stock adjustments *)

Lemma with_Items_same (db : DB) : with_Items db (Items db) = db.
Proof. now destruct db. Qed.

(** A completed [update_stock] after which the item cannot be fetched did
    nothing. *)
Lemma update_stock_still_unknown `{PyParse} `{SqliteCoerce} (db db1 : DB)
    (m unit : pystr) (q : float) (r : result Datatypes.unit) :
  update_stock m unit q db = (db1, r) ->
  fetch_item (Items db1) m = None \/ (exists e, r = Raise e) ->
  db1 = db.
Proof.
  unfold update_stock.
  destruct (fetch_item (Items db) m) as [row|] eqn:Ef; [|now intros [= <- <-]].
  destruct (to_base_unit _ _ _ _) as [dq|e]; [|now intros [= <- <-]].
  intros [= <- <-] [Hnone | [e He]]; [|discriminate].
  simpl in Hnone. rewrite (fetch_add_to_stock_same _ _ _ Ef) in Hnone.
  discriminate.
Qed.

(** X8. A purchase entry and a stock adjustment are all or nothing: unless
    the slot runs to its end (success message, dialog accepted), the
    database is as it was before, with neither the stock changed nor a row
    logged. *)
Theorem stock_entry_all_or_nothing `{PyParse} `{SqliteCoerce} :
  (forall (now : pystr) (f : PurchasesTab.form) (db : DB),
      snd (PurchasesTab.add_stock now f db) <> Done ->
      fst (PurchasesTab.add_stock now f db) = db) /\
  (forall (now : pystr) (f : StockAdjustDialog.form) (db : DB),
      snd (StockAdjustDialog.accept now f db) <> Done ->
      fst (StockAdjustDialog.accept now f db) = db).
Proof.
  split; intros now f db.
  - unfold PurchasesTab.add_stock.
    destruct (negb _ || negb _ || negb _); [reflexivity|].
    destruct (float_of_text (PurchasesTab.qty f)) as [q|e]; [|reflexivity].
    destruct (update_stock _ _ q db) as [db1 [[]|e]] eqn:Eu.
    + unfold fetch_item_id.
      destruct (fetch_item (Items db1) (PurchasesTab.item f)) eqn:Ef;
        simpl; [contradiction|].
      intros _. eapply update_stock_still_unknown; eauto.
    + intros _. simpl. eapply update_stock_still_unknown; eauto.
  - unfold StockAdjustDialog.accept.
    destruct (negb _ || negb _); [reflexivity|].
    destruct (float_of_text (StockAdjustDialog.qty f)) as [q|e];
      [|reflexivity].
    destruct (update_stock _ _ q db) as [db1 [[]|e]] eqn:Eu.
    + unfold fetch_item_id.
      destruct (fetch_item (Items db1) (StockAdjustDialog.item f)) eqn:Ef;
        simpl; [contradiction|].
      intros _. eapply update_stock_still_unknown; eauto.
    + intros _. simpl. eapply update_stock_still_unknown; eauto.
Qed.

Lemma stock_entry_all_or_nothing_witness :
  fst (PurchasesTab.add_stock (lit "2024-06-01 09:00:00")
         (PurchasesTab.mk (lit "Sugar") (lit "Kg") (lit "5") (lit "40") [])
         Sample.shop)
  = Sample.shop
  /\ fst (StockAdjustDialog.accept (lit "2024-06-01 09:00:00")
            (StockAdjustDialog.mk (lit "Rice") (lit "one") (lit "Bag")
                                  (lit "count"))
            Sample.shop)
     = Sample.shop.
Proof.
  destruct (@stock_entry_all_or_nothing plain_parse plain_sqlite)
    as [Hpurchase Hadjust].
  split; [apply Hpurchase | apply Hadjust]; discriminate.
Defined.

(** X9. A stock adjustment with quantity and reason filled in, a quantity
    that reads as a number (it may be negative), and an item of [Items] whose
    conversion rate is absent or a number, is accepted: the item's stock
    moves by the quantity, converted when the typed unit is the item's
    secondary unit and taken as it is for any other unit text, and one row
    with the date, the item's key, the quantity, the unit and the reason is
    appended to [StockAdjustments]; [Purchases] is untouched. *)
Theorem adjustment_moves_stock_and_logs `{PyParse} `{SqliteCoerce} :
  forall (now : pystr) (f : StockAdjustDialog.form) (db : DB) (r : Item.row)
         (q : float),
    StockAdjustDialog.qty f <> [] ->
    StockAdjustDialog.reason f <> [] ->
    py_float (StockAdjustDialog.qty f) = Some q ->
    fetch_item (Items db) (StockAdjustDialog.item f) = Some r ->
    numeric_or_blank (Item.ConversionRate r) ->
    exists (db' : DB) (id : Z) (r' : Item.row),
      StockAdjustDialog.accept now f db = (db', Done) /\
      fetch_item (Items db') (StockAdjustDialog.item f) = Some r' /\
      Item.StockQty r'
      = sql_plus (Item.StockQty r)
                 (stock_change r (StockAdjustDialog.unit f) q) /\
      same_but_stock r r' /\
      StockAdjustments db'
      = StockAdjustments db
        ++ [StockAdjustment.mk id (Some now) (Item.ItemID r)
              (real_affinity (StockAdjustDialog.qty f))
              (Some (StockAdjustDialog.unit f))
              (Some (StockAdjustDialog.reason f))] /\
      Purchases db' = Purchases db.
Proof.
  intros now f db r q Hqty Hreason Hq Hfetch Hconv.
  unfold StockAdjustDialog.accept, float_of_text.
  destruct (StockAdjustDialog.qty f) as [|c1 s1] eqn:E1; [contradiction|].
  destruct (StockAdjustDialog.reason f) as [|c2 s2] eqn:E2; [contradiction|].
  simpl. rewrite Hq. unfold update_stock. rewrite Hfetch.
  rewrite (to_base_unit_stock_change r (StockAdjustDialog.unit f) q Hconv).
  unfold fetch_item_id. cbn [fst snd Items with_Items].
  rewrite (fetch_add_to_stock_same _ _ _ Hfetch).
  do 3 eexists. split; [reflexivity|]. cbn [Items StockAdjustments Purchases].
  split; [eapply fetch_add_to_stock_same; exact Hfetch|].
  split; [reflexivity|]. split; [apply same_but_stock_with|].
  split; reflexivity.
Qed.

Lemma adjustment_moves_stock_and_logs_witness :
  exists (db' : DB),
    StockAdjustDialog.accept (lit "2024-06-02 18:00:00")
      (StockAdjustDialog.mk (lit "Rice") (lit "-100") (lit "Kg")
                            (lit "spoiled"))
      Sample.shop
    = (db', Done)
    /\ (exists r' : Item.row,
          fetch_item (Items db') (lit "Rice") = Some r'
          /\ Item.StockQty r' = RReal 8%float
          /\ same_but_stock Sample.rice r')
    /\ List.length (StockAdjustments db')
       = S (List.length (StockAdjustments Sample.shop))
    /\ Purchases db' = Purchases Sample.shop.
Proof.
  assert (Hq : py_float (lit "-100") = Some (-100)%float) by reflexivity.
  assert (Hrow : fetch_item (Items Sample.shop) (lit "Rice")
                 = Some Sample.rice) by reflexivity.
  destruct (adjustment_moves_stock_and_logs (lit "2024-06-02 18:00:00")
              (StockAdjustDialog.mk (lit "Rice") (lit "-100") (lit "Kg")
                                    (lit "spoiled"))
              Sample.shop (r := Sample.rice) (q := (-100)%float))
    as (db' & id & r' & Hrun & Hnew & Hstock & Hsame & Hlog & Hpur);
    try discriminate; auto.
  - exact I.
  - exists db'. split; [exact Hrun|]. split.
    + exists r'. split; [exact Hnew|]. split; [exact Hstock | exact Hsame].
    + split; [|exact Hpur]. rewrite Hlog, length_app. simpl. lia.
Defined.

(** X10. A purchase reports success only when item, unit and quantity are
    filled in, the quantity reads as a number and the item is in [Items];
    the row it logs carries that item's key. *)
Theorem purchase_logged_only_for_item `{PyParse} `{SqliteCoerce} :
  forall (now : pystr) (f : PurchasesTab.form) (db db' : DB),
    PurchasesTab.add_stock now f db = (db', Done) ->
    PurchasesTab.item f <> [] /\
    PurchasesTab.unit f <> [] /\
    PurchasesTab.qty f <> [] /\
    exists (r : Item.row) (q : float) (id : Z),
      fetch_item (Items db) (PurchasesTab.item f) = Some r /\
      py_float (PurchasesTab.qty f) = Some q /\
      Purchases db'
      = Purchases db ++ [PurchasesTab.logged id now (Item.ItemID r) f] /\
      ~ In id (map Purchase.PurchaseID (Purchases db)).
Proof.
  intros now f db db'. unfold PurchasesTab.add_stock, float_of_text.
  destruct (PurchasesTab.item f) as [|c1 s1] eqn:E1; [discriminate|].
  destruct (PurchasesTab.unit f) as [|c2 s2] eqn:E2; [discriminate|].
  destruct (PurchasesTab.qty f) as [|c3 s3] eqn:E3; [discriminate|].
  cbn [PyStr.truthy negb orb].
  destruct (py_float (c3 :: s3)) as [q|]; [|discriminate].
  unfold update_stock, fetch_item_id.
  destruct (fetch_item (Items db) (c1 :: s1)) as [r|] eqn:Ef.
  - destruct (to_base_unit _ _ _ _) as [dq|e]; [|discriminate].
    cbn [fst snd Items with_Items].
    rewrite (fetch_add_to_stock_same _ _ _ Ef). simpl.
    intros [= <-]. repeat split; try discriminate.
    exists r, q. eexists. repeat split. apply next_rowid_fresh.
  - rewrite Ef. discriminate.
Qed.

Lemma purchase_logged_only_for_item_witness :
  exists (r : Item.row) (q : float) (id : Z),
    fetch_item (Items Sample.shop) (lit "Rice") = Some r /\
    py_float (lit "3") = Some q /\
    Purchases (fst (PurchasesTab.add_stock (lit "2024-06-01 09:00:00")
                      Sample.rice_purchase Sample.shop))
    = [PurchasesTab.logged id (lit "2024-06-01 09:00:00") (Item.ItemID r)
                           Sample.rice_purchase] /\
    ~ In id [].
Proof.
  exact (proj2 (proj2 (proj2
           (purchase_logged_only_for_item (lit "2024-06-01 09:00:00")
              Sample.rice_purchase Sample.shop eq_refl)))).
Defined.

(* ================================================================= *)
(** ** [update_stock] on two items *)

Lemma add_to_stock_commute `{SqliteCoerce} (m n : pystr) (a b : float)
    (rows : list Item.row) :
  m <> n ->
  add_to_stock n b (add_to_stock m a rows)
  = add_to_stock m a (add_to_stock n b rows).
Proof.
  intros Hmn. unfold add_to_stock. rewrite !map_map. apply map_ext.
  intros r.
  destruct (PyStr.eqb (Item.Name r) m) eqn:Em;
    destruct (PyStr.eqb (Item.Name r) n) eqn:En; simpl;
    rewrite ?Em, ?En; try reflexivity.
  apply pystr_eqb_eq in Em. apply pystr_eqb_eq in En. congruence.
Qed.

(** The database after [update_stock], from what the lookup finds. *)
Lemma update_stock_effect `{PyParse} `{SqliteCoerce} (db : DB)
    (m unit : pystr) (q : float) :
  fst (update_stock m unit q db)
  = match fetch_item (Items db) m with
    | Some row =>
        match to_base_unit unit (Item.SecondaryUnit row)
                           (Item.ConversionRate row) q with
        | Ok dq => with_Items db (add_to_stock m dq (Items db))
        | Raise _ => db
        end
    | None => db
    end.
Proof.
  unfold update_stock.
  destruct (fetch_item (Items db) m) as [row|]; [|reflexivity].
  now destruct (to_base_unit _ _ _ _).
Qed.

Lemma update_stock_fetch_other `{PyParse} `{SqliteCoerce} (db : DB)
    (m unit n : pystr) (q : float) :
  m <> n ->
  fetch_item (Items (fst (update_stock m unit q db))) n
  = fetch_item (Items db) n.
Proof.
  intros Hmn. rewrite update_stock_effect.
  destruct (fetch_item (Items db) m) as [row|]; [|reflexivity].
  destruct (to_base_unit _ _ _ _); [|reflexivity].
  simpl. now apply fetch_add_to_stock_other.
Qed.

(** X11. Stock updates of two different items can be made in either
    order: the database after both is the same, whether or not either of
    them finds its item or fails in the conversion. *)
Theorem update_stock_commutes `{PyParse} `{SqliteCoerce} :
  forall (db : DB) (m n unit_m unit_n : pystr) (q_m q_n : float),
    m <> n ->
    fst (update_stock n unit_n q_n (fst (update_stock m unit_m q_m db)))
    = fst (update_stock m unit_m q_m (fst (update_stock n unit_n q_n db))).
Proof.
  intros db m n um un qm qn Hmn.
  rewrite (update_stock_effect (fst (update_stock m um qm db))).
  rewrite (update_stock_effect (fst (update_stock n un qn db))).
  rewrite (update_stock_fetch_other db um qm Hmn).
  rewrite (update_stock_fetch_other db un qn (not_eq_sym Hmn)).
  rewrite !update_stock_effect.
  destruct (fetch_item (Items db) m) as [rm|];
    destruct (fetch_item (Items db) n) as [rn|]; try reflexivity.
  destruct (to_base_unit um _ _ qm) as [dm|em];
    destruct (to_base_unit un _ _ qn) as [dn|en]; try reflexivity.
  simpl. unfold with_Items. simpl. f_equal.
  now apply add_to_stock_commute.
Qed.

Lemma update_stock_commutes_witness :
  fst (update_stock (lit "Soap") (lit "Piece") (-2)%float
         (fst (update_stock (lit "Rice") (lit "Kg") (-25)%float Sample.shop)))
  = fst (update_stock (lit "Rice") (lit "Kg") (-25)%float
           (fst (update_stock (lit "Soap") (lit "Piece") (-2)%float
                              Sample.shop))).
Proof.
  apply update_stock_commutes. discriminate.
Defined.

(* ================================================================= *)
(** ** [print_and_finish]: what each ending leaves *)

Lemma gather_lines `{PyParse} (rows : list bill_item) :
  match BillingTab.gather rows with
  | Ok items => items = billed_lines rows
  | Raise e => e = ValueError
  end.
Proof.
  induction rows as [|it rows IH]; simpl; [reflexivity|].
  destruct (BillingTab.billed it) as [keep|e] eqn:Eb; simpl.
  - apply billed_spec in Eb.
    destruct (BillingTab.gather rows) as [rest|e]; simpl; [|exact IH].
    subst. unfold billed_lines. simpl.
    now destruct (billed_qty it).
  - unfold BillingTab.billed, float_of_text in Eb.
    destruct (PyStr.truthy (bi_item it) && PyStr.truthy (bi_qty it));
      [|discriminate].
    destruct (py_float (bi_qty it)); simpl in Eb; congruence.
Qed.

Lemma sell_settings `{PyParse} `{SqliteCoerce} (items : list bill_item) :
  forall db : DB, Settings (fst (BillingTab.sell items db)) = Settings db.
Proof.
  induction items as [|it items IH]; intros db; simpl; [reflexivity|].
  destruct (float_of_text (bi_qty it)) as [q|e]; [|reflexivity].
  pose proof (update_stock_other_tables db (bi_item it) (bi_unit it)
                                        (PyFloat.neg q))
    as (_ & _ & _ & HS & _).
  destruct (update_stock _ _ _ db) as [db1 [[]|e]]; simpl in HS.
  - now rewrite IH.
  - exact HS.
Qed.

Lemma get_next_bill_no_raises `{PyParse} (db db' : DB) (e : exn) :
  get_next_bill_no db = (db', Raise e) -> db' = db.
Proof.
  unfold get_next_bill_no.
  destruct (fetch_setting _ _) as [row|]; [|now intros [= <-]].
  destruct (Setting.Value row) as [text|]; [|now intros [= <-]].
  destruct (py_int text); [discriminate | now intros [= <-]].
Qed.

(** X12. [print_and_finish] by its ending.  When it escapes, the error is
    the [ValueError] of a quantity text, nothing was printed and the
    database is untouched.  When printing fails, the receipt of the lines
    that count was printed and the bill counter is not advanced (stock of
    lines before the failure may have gone down).  When it finishes, the
    receipt of the lines that count was printed, and the new bill number is
    one more than the counter read, and is what the counter now holds. *)
Theorem print_and_finish_endings `{PyParse} `{SqliteCoerce} :
  forall (b : BillingTab.bill) (db : DB),
    let db' := fst (BillingTab.print_and_finish b db) in
    let printed :=
      print_receipt (BillingTab.bill_no b) (BillingTab.customer b)
        (BillingTab.date b) (billed_lines (BillingTab.rows b))
        (BillingTab.totalqty b) (BillingTab.grand b) in
    match snd (BillingTab.print_and_finish b db) with
    | BillingTab.Escaped e => e = ValueError /\ db' = db
    | BillingTab.PrintingFailed receipt e =>
        receipt = printed /\ Settings db' = Settings db
    | BillingTab.Finished receipt next_no =>
        receipt = printed /\
        exists (row : Setting.row) (text : pystr),
          fetch_setting (Settings db) LastBillNo_key = Some row /\
          Setting.Value row = Some text /\
          py_int text = Some (next_no - 1)%Z /\
          fetch_setting (Settings db') LastBillNo_key
          = Some (Setting.mk LastBillNo_key (Some (PyStr.of_int next_no)))
    end.
Proof.
  intros b db db' printed. subst db' printed.
  unfold BillingTab.print_and_finish.
  pose proof (gather_lines (BillingTab.rows b)) as Hg.
  destruct (BillingTab.gather (BillingTab.rows b)) as [items|e];
    [|now split].
  subst items.
  pose proof (sell_settings (billed_lines (BillingTab.rows b)) db) as Hs.
  destruct (BillingTab.sell _ db) as [db1 [[]|e]]; simpl in Hs;
    [|now split].
  destruct (get_next_bill_no db1) as [db2 [no|e]] eqn:En; simpl.
  - split; [reflexivity|].
    unfold get_next_bill_no in En. rewrite Hs in En.
    destruct (fetch_setting (Settings db) LastBillNo_key) as [row|] eqn:Er;
      [|discriminate].
    destruct (Setting.Value row) as [text|] eqn:Ev; [|discriminate].
    destruct (py_int text) as [n|] eqn:Ei; [|discriminate].
    injection En as <- <-. exists row, text.
    split; [reflexivity|]. split; [exact Ev|]. split.
    + rewrite Ei. f_equal. lia.
    + cbn [Settings with_Settings]. eapply fetch_set_setting. exact Er.
  - split; [reflexivity|].
    apply get_next_bill_no_raises in En. now subst db2.
Qed.





Lemma billed_lines_no_item `{PyParse} (rows : list bill_item) :
  Forall (fun it => bi_item it = []) rows -> billed_lines rows = [].
Proof.
  unfold billed_lines. induction 1 as [|it rows Hit _ IH]; simpl;
    [reflexivity|].
  unfold billed_qty at 1. now rewrite Hit.
Qed.

Lemma gather_no_item `{PyParse} (rows : list bill_item) :
  Forall (fun it => bi_item it = []) rows -> BillingTab.gather rows = Ok [].
Proof.
  induction 1 as [|it rows Hit _ IH]; simpl; [reflexivity|].
  unfold BillingTab.billed. rewrite Hit. simpl. now rewrite IH.
Qed.

(** X14. Print and finish on a bill in which no line names an item (the
    table holds only the empty row the tab adds by itself) still prints a
    receipt, one without item lines, and uses up a bill number; [Items] is
    untouched. *)
Theorem empty_bill_uses_a_number `{PyParse} `{SqliteCoerce} :
  forall (b : BillingTab.bill) (db : DB) (row : Setting.row) (text : pystr)
         (n : Z),
    Forall (fun it => bi_item it = []) (BillingTab.rows b) ->
    fetch_setting (Settings db) LastBillNo_key = Some row ->
    Setting.Value row = Some text ->
    py_int text = Some n ->
    exists db' : DB,
      BillingTab.print_and_finish b db
      = (db',
         BillingTab.Finished
           (receipt_head (BillingTab.bill_no b) (BillingTab.customer b)
                         (BillingTab.date b)
            ++ receipt_foot (BillingTab.totalqty b) (BillingTab.grand b))
           (n + 1)%Z) /\
      Items db' = Items db /\
      fetch_setting (Settings db') LastBillNo_key
      = Some (Setting.mk LastBillNo_key (Some (PyStr.of_int (n + 1)))).
Proof.
  intros b db row text n Hrows Hrow Hval Hint.
  unfold BillingTab.print_and_finish.
  rewrite (gather_no_item Hrows). cbn [BillingTab.sell].
  rewrite (get_next_bill_no_step db Hrow Hval Hint).
  eexists. split; [reflexivity|]. split; [reflexivity|].
  cbn [Settings with_Settings]. eapply fetch_set_setting. exact Hrow.
Qed.

Lemma empty_bill_uses_a_number_witness :
  exists db' : DB,
    BillingTab.print_and_finish
      (BillingTab.mk (lit "1001") [] (lit "01-06-2024 10:30 AM")
                     [mk_bill_item [] [] (lit "1") [] (lit "0")]
                     (lit "1.0") (lit "0.0"))
      Sample.shop
    = (db',
       BillingTab.Finished
         (receipt_head (lit "1001") [] (lit "01-06-2024 10:30 AM")
          ++ receipt_foot (lit "1.0") (lit "0.0"))
         1001%Z)
    /\ Items db' = Items Sample.shop.
Proof.
  assert (Hint : py_int (lit "1000") = Some 1000%Z) by reflexivity.
  destruct (empty_bill_uses_a_number
              (BillingTab.mk (lit "1001") [] (lit "01-06-2024 10:30 AM")
                             [mk_bill_item [] [] (lit "1") [] (lit "0")]
                             (lit "1.0") (lit "0.0"))
              Sample.shop
              (row := Setting.mk LastBillNo_key (Some (lit "1000"))))
    with (text := lit "1000") (n := 1000%Z)
    as (db' & Hrun & Hitems & _); auto.
  - repeat constructor.
  - exists db'. now split.
Defined.

Lemma sell_app `{PyParse} `{SqliteCoerce} (xs ys : list bill_item) :
  forall db : DB,
    BillingTab.sell (xs ++ ys) db
    = match BillingTab.sell xs db with
      | (db1, Ok _) => BillingTab.sell ys db1
      | (db1, Raise e) => (db1, Raise e)
      end.
Proof.
  induction xs as [|x xs IH]; intros db; simpl; [reflexivity|].
  destruct (float_of_text (bi_qty x)) as [q|e]; [|reflexivity].
  destruct (update_stock _ _ _ db) as [db1 [[]|e]]; [apply IH | reflexivity].
Qed.

(** X15. Selling the lines of a bill is not all or nothing: when the
    stock update of a line fails, the updates of the lines before it stay
    in the database and the lines after it are not sold. *)
Theorem sell_stops_at_failing_line `{PyParse} `{SqliteCoerce} :
  forall (before after : list bill_item) (it : bill_item) (db db1 : DB)
         (q : float) (e : exn),
    BillingTab.sell before db = (db1, Ok tt) ->
    float_of_text (bi_qty it) = Ok q ->
    update_stock (bi_item it) (bi_unit it) (PyFloat.neg q) db1
    = (db1, Raise e) ->
    BillingTab.sell (before ++ it :: after) db = (db1, Raise e).
Proof.
  intros before after it db db1 q e Hbefore Hq Hfail.
  rewrite sell_app, Hbefore. simpl. now rewrite Hq, Hfail.
Qed.

(* ================================================================= *)
(** ** What holds in every state the application reaches *)

Lemma counter_ok_next `{PyParse} (db : DB) :
  counter_ok db ->
  exists n : Z,
    (1000 <= n)%Z /\
    Settings db = [Setting.mk LastBillNo_key (Some (PyStr.of_int n))] /\
    get_next_bill_no db
    = (with_Settings db
         [Setting.mk LastBillNo_key (Some (PyStr.of_int (n + 1)))],
       Ok (n + 1)%Z).
Proof.
  intros (n & Hn & Hs). exists n. split; [exact Hn|]. split; [exact Hs|].
  unfold get_next_bill_no, fetch_setting, set_setting. rewrite Hs.
  cbn [find map Setting.Key Setting.Value]. rewrite pystr_eqb_refl.
  cbn [Setting.Value]. now rewrite py_int_of_str.
Qed.

Lemma careful_step_consistent `{PyParse} (db db' : DB) :
  careful_step db db' -> consistent db -> consistent db'.
Proof.
  intros (Hset & Hitems & Hids & Hcust & (ps & Hps & Hpids)
          & (adjs & Hadjs & Haids))
         (Hcounter & Hi & Hc & Hp & Ha).
  split; [|split; [|split; [|split]]].
  - unfold counter_ok. destruct Hset as [-> | ->]; [exact Hcounter|].
    destruct (counter_ok_next Hcounter) as (n & Hn & _ & Hnext).
    rewrite Hnext. exists (n + 1)%Z. split; [lia | reflexivity].
  - apply Hitems, Hi.
  - apply Hcust, Hc.
  - rewrite Hps. apply Forall_app. split; [|exact Hpids].
    eapply Forall_impl; [|exact Hp]. intros p. apply Hids.
  - rewrite Hadjs. apply Forall_app. split; [|exact Haids].
    eapply Forall_impl; [|exact Ha]. intros a. apply Hids.
Qed.

Lemma same_but_stock_keys (l l' : list Item.row) :
  Forall2 same_but_stock l l' ->
  map Item.Name l' = map Item.Name l
  /\ map Item.Code l' = map Item.Code l
  /\ map Item.ItemID l' = map Item.ItemID l.
Proof.
  induction 1 as [|a b l l' Hab _ (IH1 & IH2 & IH3)]; simpl; [now repeat split|].
  destruct Hab as (Hid & Hname & Hcode & _).
  rewrite IH1, IH2, IH3, Hid, Hname, Hcode. now repeat split.
Qed.

(** A step that leaves [Settings] to the bill counter, [Customers] alone,
    changes only stock cells of [Items] and at most appends log rows of
    items is careful. *)
Lemma stock_step_careful `{PyParse} (db db' : DB)
    (ps : list Purchase.row) (adjs : list StockAdjustment.row) :
  (Settings db' = Settings db
   \/ Settings db' = Settings (fst (get_next_bill_no db))) ->
  Customers db' = Customers db ->
  Forall2 same_but_stock (Items db) (Items db') ->
  Purchases db' = Purchases db ++ ps ->
  Forall (fun p => In (Purchase.ItemID p) (map Item.ItemID (Items db'))) ps ->
  StockAdjustments db' = StockAdjustments db ++ adjs ->
  Forall (fun a => In (StockAdjustment.ItemID a)
                      (map Item.ItemID (Items db'))) adjs ->
  careful_step db db'.
Proof.
  intros Hset Hcust Hitems Hps Hpids Hadjs Haids.
  destruct (same_but_stock_keys Hitems) as (Hn & Hc & Hi).
  unfold careful_step, items_distinct, customers_distinct.
  rewrite Hn, Hc, Hi, Hcust. rewrite Hi in Hpids, Haids.
  split; [exact Hset|]. split; [tauto|]. split; [apply incl_refl|].
  split; [tauto|]. split; [now exists ps | now exists adjs].
Qed.

Lemma update_stock_same_but_stock `{PyParse} `{SqliteCoerce} (db : DB)
    (m unit : pystr) (q : float) :
  Forall2 same_but_stock (Items db) (Items (fst (update_stock m unit q db))).
Proof.
  eapply Forall2_impl; [|apply update_stock_rows]. now intros a b [Hab _].
Qed.

Lemma fetch_item_id_in (rows : list Item.row) (n : pystr) (id : Z) :
  fetch_item_id rows n = Ok id -> In id (map Item.ItemID rows).
Proof.
  unfold fetch_item_id. destruct (fetch_item rows n) as [r|] eqn:E;
    [|discriminate].
  intros [= <-]. apply find_some in E. apply in_map. tauto.
Qed.

Lemma add_stock_careful `{PyParse} `{SqliteCoerce} (now : pystr)
    (f : PurchasesTab.form) (db : DB) :
  careful_step db (fst (PurchasesTab.add_stock now f db)).
Proof.
  assert (Hsame : careful_step db db).
  { apply (stock_step_careful db db (ps := []) (adjs := []));
      auto using app_nil_r.
    apply Forall2_same, same_but_stock_refl. }
  unfold PurchasesTab.add_stock.
  destruct (negb _ || negb _ || negb _); [exact Hsame|].
  destruct (float_of_text (PurchasesTab.qty f)) as [q|e]; [|exact Hsame].
  pose proof (update_stock_other_tables db (PurchasesTab.item f)
                                        (PurchasesTab.unit f) q)
    as (HC & HP & HA & HS & _).
  pose proof (update_stock_same_but_stock db (PurchasesTab.item f)
                                          (PurchasesTab.unit f) q) as HI.
  destruct (update_stock _ _ q db) as [db1 [[]|e]]; simpl in *.
  - destruct (fetch_item_id (Items db1) (PurchasesTab.item f)) as [id|e]
      eqn:Ef; simpl.
    + apply stock_step_careful
        with (ps := [PurchasesTab.logged
                       (next_rowid (seq_Purchases db1)
                          (map Purchase.PurchaseID (Purchases db1)))
                       now id f])
             (adjs := []);
        simpl; rewrite ?HP, ?HA, ?app_nil_r; auto;
        repeat constructor; simpl; eapply fetch_item_id_in; eassumption.
    + apply (stock_step_careful db db1 (ps := []) (adjs := []));
        rewrite ?app_nil_r; auto.
  - apply (stock_step_careful db db1 (ps := []) (adjs := []));
      rewrite ?app_nil_r; auto.
Qed.

Lemma adjust_careful `{PyParse} `{SqliteCoerce} (now : pystr)
    (f : StockAdjustDialog.form) (db : DB) :
  careful_step db (fst (StockAdjustDialog.accept now f db)).
Proof.
  assert (Hsame : careful_step db db).
  { apply (stock_step_careful db db (ps := []) (adjs := []));
      auto using app_nil_r.
    apply Forall2_same, same_but_stock_refl. }
  unfold StockAdjustDialog.accept.
  destruct (negb _ || negb _); [exact Hsame|].
  destruct (float_of_text (StockAdjustDialog.qty f)) as [q|e];
    [|exact Hsame].
  pose proof (update_stock_other_tables db (StockAdjustDialog.item f)
                                        (StockAdjustDialog.unit f) q)
    as (HC & HP & HA & HS & _).
  pose proof (update_stock_same_but_stock db (StockAdjustDialog.item f)
                                          (StockAdjustDialog.unit f) q) as HI.
  destruct (update_stock _ _ q db) as [db1 [[]|e]]; simpl in *.
  - destruct (fetch_item_id (Items db1) (StockAdjustDialog.item f)) as [id|e]
      eqn:Ef; simpl.
    + apply stock_step_careful
        with (ps := [])
             (adjs := [StockAdjustment.mk
                         (next_rowid (seq_StockAdjustments db1)
                            (map StockAdjustment.AdjID
                                 (StockAdjustments db1)))
                         (Some now) id
                         (real_affinity (StockAdjustDialog.qty f))
                         (Some (StockAdjustDialog.unit f))
                         (Some (StockAdjustDialog.reason f))]);
        simpl; rewrite ?HP, ?HA, ?app_nil_r; auto;
        repeat constructor; simpl; eapply fetch_item_id_in; eassumption.
    + apply (stock_step_careful db db1 (ps := []) (adjs := []));
        rewrite ?app_nil_r; auto.
  - apply (stock_step_careful db db1 (ps := []) (adjs := []));
      rewrite ?app_nil_r; auto.
Qed.

Lemma get_next_bill_no_settings `{PyParse} (db db1 : DB) :
  Settings db1 = Settings db ->
  Settings (fst (get_next_bill_no db1)) = Settings (fst (get_next_bill_no db)).
Proof.
  intros Hs. unfold get_next_bill_no. rewrite Hs.
  destruct (fetch_setting _ _) as [row|]; [|exact Hs].
  destruct (Setting.Value row) as [text|]; [|exact Hs].
  destruct (py_int text); [reflexivity | exact Hs].
Qed.

Lemma only_stock_careful `{PyParse} (db db' : DB) :
  only_stock_and_counter db db' ->
  (Settings db' = Settings db
   \/ Settings db' = Settings (fst (get_next_bill_no db))) ->
  careful_step db db'.
Proof.
  intros (HC & HP & HA & _ & _ & _ & _ & _ & HI & _) Hset.
  apply (stock_step_careful db db' (ps := []) (adjs := []));
    rewrite ?app_nil_r; auto.
Qed.

Lemma get_next_bill_no_careful `{PyParse} (db : DB) :
  careful_step db (fst (get_next_bill_no db)).
Proof.
  apply only_stock_careful; [apply get_next_bill_no_only_counter | now right].
Qed.

Lemma print_and_finish_careful `{PyParse} `{SqliteCoerce}
    (b : BillingTab.bill) (db : DB) :
  careful_step db (fst (BillingTab.print_and_finish b db)).
Proof.
  apply only_stock_careful; [apply print_and_finish_only_stock|].
  unfold BillingTab.print_and_finish.
  destruct (BillingTab.gather (BillingTab.rows b)) as [items|e];
    [|now left].
  pose proof (sell_settings items db) as Hs.
  destruct (BillingTab.sell items db) as [db1 [[]|e]]; simpl in Hs;
    [|now left].
  pose proof (get_next_bill_no_settings db db1 Hs) as Hn.
  destruct (get_next_bill_no db1) as [db2 [no|e]]; simpl in *; now right.
Qed.

Lemma item_accept_careful `{PyParse} `{SqliteCoerce} (f : ItemDialog.form)
    (db : DB) :
  careful_step db (fst (ItemDialog.accept f db)).
Proof.
  destruct (item_accept_rows f db) as (added & Hids & _ & _).
  assert (Hrest :
            Customers (fst (ItemDialog.accept f db)) = Customers db /\
            Purchases (fst (ItemDialog.accept f db)) = Purchases db /\
            StockAdjustments (fst (ItemDialog.accept f db))
            = StockAdjustments db /\
            Settings (fst (ItemDialog.accept f db)) = Settings db).
  { unfold ItemDialog.accept.
    destruct (negb _ || negb _ || negb _); [now repeat split|].
    destruct (existsb _ (Items db)).
    - destruct (ItemDialog.update_conflict f (Items db)); now repeat split.
    - destruct (ItemDialog.insert_conflict f (Items db)); now repeat split. }
  destruct Hrest as (HC & HP & HA & HS).
  unfold careful_step, customers_distinct. rewrite HC, HP, HA, HS, Hids.
  split; [now left|]. split; [apply item_accept_distinct|].
  split; [apply incl_appl, incl_refl|]. split; [tauto|].
  split; exists []; rewrite app_nil_r; auto.
Qed.

Lemma customer_accept_careful `{PyParse} (f : CustomerDialog.form)
    (db : DB) :
  careful_step db (fst (CustomerDialog.accept f db)).
Proof.
  assert (Hrest :
            Items (fst (CustomerDialog.accept f db)) = Items db /\
            Purchases (fst (CustomerDialog.accept f db)) = Purchases db /\
            StockAdjustments (fst (CustomerDialog.accept f db))
            = StockAdjustments db /\
            Settings (fst (CustomerDialog.accept f db)) = Settings db).
  { unfold CustomerDialog.accept.
    destruct (negb _); [now repeat split|].
    destruct (existsb _ (Customers db)); now repeat split. }
  destruct Hrest as (HI & HP & HA & HS).
  unfold careful_step, items_distinct. rewrite HI, HP, HA, HS.
  split; [now left|]. split; [tauto|]. split; [apply incl_refl|].
  split; [apply customer_accept_distinct|].
  split; exists []; rewrite app_nil_r; auto.
Qed.

Lemma init_db_existing_counter (db : DB) :
  counter_ok db -> init_db_existing db = db.
Proof.
  intros (n & _ & Hs). unfold init_db_existing, fetch_setting. rewrite Hs.
  cbn [find Setting.Key]. now rewrite pystr_eqb_refl.
Qed.

Lemma init_db_consistent : consistent init_db.
Proof.
  split; [|split; [|split]].
  - exists 1000%Z. split; [lia | reflexivity].
  - repeat split; constructor.
  - split; constructor.
  - split; constructor.
Qed.

Lemma reachable_consistent `{PyParse} `{SqliteCoerce} (db : DB) :
  reachable db -> consistent db.
Proof.
  induction 1 as [ | db _ IH | db _ IH | f db _ IH | f db _ IH
                   | now f db _ IH | now f db _ IH | b db _ IH ].
  - apply init_db_consistent.
  - now rewrite (init_db_existing_counter (proj1 IH)).
  - exact (careful_step_consistent (get_next_bill_no_careful db) IH).
  - exact (careful_step_consistent (item_accept_careful f db) IH).
  - exact (careful_step_consistent (customer_accept_careful f db) IH).
  - exact (careful_step_consistent (adjust_careful now f db) IH).
  - exact (careful_step_consistent (add_stock_careful now f db) IH).
  - exact (careful_step_consistent (print_and_finish_careful b db) IH).
Qed.

(** The sample shop is a state the application reaches. *)
Lemma sample_shop_reachable : @reachable plain_parse plain_sqlite Sample.shop.
Proof.
  unfold Sample.shop. apply reach_item, reach_item, reach_new.
Qed.

(** X16. In every state the application reaches, [Settings] is the single
    ['LastBillNo'] row holding the text of an integer [n] from 1000 on, and
    [get_next_bill_no] succeeds and returns [n + 1]: the counter is never
    lost or made unreadable, and no bill number is below 1001. *)
Theorem reachable_bill_counter `{PyParse} `{SqliteCoerce} :
  forall db : DB,
    reachable db ->
    exists n : Z,
      (1000 <= n)%Z /\
      Settings db = [Setting.mk LastBillNo_key (Some (PyStr.of_int n))] /\
      snd (get_next_bill_no db) = Ok (n + 1)%Z.
Proof.
  intros db Hreach.
  destruct (reachable_consistent Hreach) as (Hcounter & _).
  destruct (counter_ok_next Hcounter) as (n & Hn & Hs & Hnext).
  exists n. rewrite Hnext. now repeat split.
Qed.

Lemma reachable_bill_counter_witness :
  exists n : Z,
    (1000 <= n)%Z /\
    Settings Sample.shop
    = [Setting.mk LastBillNo_key (Some (PyStr.of_int n))] /\
    snd (get_next_bill_no Sample.shop) = Ok (n + 1)%Z.
Proof.
  exact (reachable_bill_counter sample_shop_reachable).
Defined.

(** X17. In every state the application reaches, no two items have the
    same name, the same code or the same key, and no two customers have the
    same name or the same key: a lookup by name finds the one row, and
    [update_stock] changes the stock of one item. *)
Theorem reachable_rows_distinct `{PyParse} `{SqliteCoerce} :
  forall db : DB,
    reachable db ->
    items_distinct db /\ customers_distinct db /\
    forall n : pystr,
      (List.length (filter (ItemDialog.named n) (Items db)) <= 1)%nat.
Proof.
  intros db Hreach.
  destruct (reachable_consistent Hreach) as (_ & Hi & Hc & _).
  split; [exact Hi|]. split; [exact Hc|]. intros n.
  apply (@NoDup_filter_key _ _ Item.Name (ItemDialog.named n) n);
    [intros a; apply item_named_iff | apply Hi].
Qed.

Lemma reachable_rows_distinct_witness :
  items_distinct Sample.shop /\ customers_distinct Sample.shop.
Proof.
  destruct (reachable_rows_distinct sample_shop_reachable) as (Hi & Hc & _).
  now split.
Defined.

(** X18. In every state the application reaches, each row of [Purchases]
    and of [StockAdjustments] carries the key of an item that is in
    [Items]: the foreign keys hold although SQLite is not asked to enforce
    them. *)
Theorem reachable_logs_refer_to_items `{PyParse} `{SqliteCoerce} :
  forall db : DB, reachable db -> logs_refer_to_items db.
Proof.
  intros db Hreach. apply (reachable_consistent Hreach).
Qed.

Lemma reachable_logs_refer_to_items_witness :
  logs_refer_to_items
    (fst (PurchasesTab.add_stock (lit "2024-06-01 09:00:00")
            Sample.rice_purchase Sample.shop)).
Proof.
  apply reachable_logs_refer_to_items.
  apply reach_purchase, sample_shop_reachable.
Defined.

(** X19. Starting the application again is harmless: [init_db] run on a
    file that has the bill counter changes nothing, so the counter is not
    set back to 1000; run twice it does what it does once; and on a file
    without rows it gives the new database. *)
Theorem init_db_again :
  (forall (db : DB) (row : Setting.row),
      fetch_setting (Settings db) LastBillNo_key = Some row ->
      init_db_existing db = db) /\
  (forall db : DB,
      init_db_existing (init_db_existing db) = init_db_existing db) /\
  init_db_existing empty_db = init_db.
Proof.
  split; [|split].
  - intros db row Hrow. unfold init_db_existing. now rewrite Hrow.
  - intros db.
    destruct (fetch_setting (Settings db) LastBillNo_key) as [row|] eqn:E.
    + unfold init_db_existing. now rewrite E, E.
    + assert (Hinit : init_db_existing db
                      = with_Settings db
                          (Settings db
                           ++ [Setting.mk LastBillNo_key
                                          (Some (lit "1000"))]))
        by (unfold init_db_existing; now rewrite E).
      rewrite Hinit. unfold init_db_existing, fetch_setting.
      cbn [Settings with_Settings].
      unfold fetch_setting in E. rewrite find_snoc.
      * cbn [Setting.Key]. now rewrite pystr_eqb_refl.
      * destruct (existsb _ (Settings db)) eqn:Ex; [|reflexivity].
        apply existsb_exists in Ex. destruct Ex as (x & Hin & Hx).
        apply (find_none _ _ E) in Hin. congruence.
  - reflexivity.
Qed.

Lemma init_db_again_witness :
  init_db_existing Sample.shop = Sample.shop.
Proof.
  apply (proj1 init_db_again Sample.shop
               (Setting.mk LastBillNo_key (Some (lit "1000")))).
  reflexivity.
Defined.

Lemma sell_stops_at_failing_line_witness :
  let flour :=
    ItemDialog.mk (lit "Flour") (lit "F1") [] [] (lit "Bag") (lit "Gram")
                  (lit "1,000") (lit "40") [] [] [] (lit "5") [] [] in
  let shop := fst (ItemDialog.accept flour Sample.shop) in
  BillingTab.sell
    ([ mk_bill_item (lit "Rice") (lit "Kg") (lit "25") (lit "50.0")
                    (lit "1250") ]
     ++ mk_bill_item (lit "Flour") (lit "Gram") (lit "500") (lit "0.04")
                     (lit "20")
     :: [ mk_bill_item (lit "Soap") (lit "Piece") (lit "2") (lit "30.0")
                       (lit "60") ])
    shop
  = (fst (update_stock (lit "Rice") (lit "Kg") (-25)%float shop),
     Raise ValueError).
Proof.
  cbv zeta.
  apply (@sell_stops_at_failing_line plain_parse plain_sqlite)
    with (q := 500%float); reflexivity.
Defined.

(* ================================================================= *)
(** ** The unit and rate lists of a billing row *)

(** X20. The unit a billing row shows after [update_item_row] is always
    one of the item's own units, the base unit or the secondary unit,
    whatever the unit combo showed before. *)
Theorem selected_unit_is_offered :
  forall (base : pystr) (sec : text_cell) (prev_unit : pystr),
    In (BillingTab.selected_unit base sec prev_unit)
       (BillingTab.units base sec).
Proof.
  intros base sec prev.
  assert (Hbase : In base (BillingTab.units base sec)).
  { unfold BillingTab.units. destruct sec as [s|]; [|now left].
    destruct (PyStr.truthy s); now left. }
  unfold BillingTab.selected_unit.
  destruct (existsb (PyStr.eqb prev) (BillingTab.units base sec)) eqn:Ex.
  - destruct (PyStr.truthy prev); [|exact Hbase].
    apply existsb_exists in Ex. destruct Ex as (u & Hin & Hu).
    apply pystr_eqb_eq in Hu. now subst u.
  - now destruct (PyStr.truthy base).
Qed.

Lemma converted_tier_length `{PyFloatFmt} (label : string)
    (rate conv : real_cell) (l : list pystr) :
  BillingTab.converted_tier label rate conv = Ok l ->
  List.length l = if is_none rate then 0%nat else 1%nat.
Proof.
  unfold BillingTab.converted_tier.
  destruct (is_none rate); [now intros [= <-]|].
  destruct (BillingTab.cell_truediv rate conv); simpl; [|discriminate].
  now intros [= <-].
Qed.

(** X21. When the rate list of a billing row is built without error, it
    has one entry for each tier of the item that is not [NULL], in the
    order A, B, C, and so at most three. *)
Theorem rates_one_per_tier `{PyFloatFmt} :
  forall (r : Item.row) (selected : pystr) (l : list pystr),
    BillingTab.rates r selected = Ok l ->
    List.length l = tiers_present r /\ (List.length l <= 3)%nat.
Proof.
  intros r selected l Hrates.
  assert (Hlen : List.length l = tiers_present r).
  { revert Hrates. unfold BillingTab.rates, tiers_present.
    destruct (text_equals _ _ && real_truthy _ && BillingTab.cell_ne_zero _).
    - destruct (BillingTab.converted_tier "Rate A: " _ _) as [a|] eqn:Ea;
        simpl; [|discriminate].
      destruct (BillingTab.converted_tier "Rate B: " _ _) as [b|] eqn:Eb;
        simpl; [|discriminate].
      destruct (BillingTab.converted_tier "Rate C: " _ _) as [c|] eqn:Ec;
        simpl; [|discriminate].
      intros [= <-]. rewrite !length_app.
      rewrite (converted_tier_length _ _ _ Ea),
              (converted_tier_length _ _ _ Eb),
              (converted_tier_length _ _ _ Ec).
      simpl. destruct (is_none (Item.RateA r)), (is_none (Item.RateB r)),
               (is_none (Item.RateC r)); reflexivity.
    - intros [= <-]. unfold BillingTab.base_tier. simpl.
      destruct (is_none (Item.RateA r)), (is_none (Item.RateB r)),
        (is_none (Item.RateC r)); reflexivity. }
  split; [exact Hlen|]. rewrite Hlen. unfold tiers_present. simpl.
  destruct (is_none (Item.RateA r)), (is_none (Item.RateB r)),
    (is_none (Item.RateC r)); simpl; lia.
Qed.

Lemma rates_one_per_tier_witness :
  List.length
    [ lit "Rate A: " ++ [rupee] ++ sample_str 2500%float;
      lit "Rate B: " ++ [rupee];
      lit "Rate C: " ++ [rupee] ]
  = tiers_present Sample.rice.
Proof.
  apply (@rates_one_per_tier sample_fmt Sample.rice (lit "Bag")).
  reflexivity.
Defined.

(* ================================================================= *)
(** ** The receipt on 48 columns *)

Lemma length_ljust (w : nat) (s : pystr) :
  List.length (ljust w s) = Nat.max w (List.length s).
Proof. unfold ljust. rewrite length_app, repeat_length. lia. Qed.

Lemma length_rjust (w : nat) (s : pystr) :
  List.length (rjust w s) = Nat.max w (List.length s).
Proof. unfold rjust. rewrite length_app, repeat_length. lia. Qed.

Lemma length_center (w : nat) (s : pystr) :
  List.length (center w s) = Nat.max w (List.length s).
Proof.
  unfold center. cbv zeta. rewrite !length_app, !repeat_length.
  pose proof (Nat.div2_odd (w - List.length s)) as Hm.
  destruct (Nat.odd (w - List.length s)); simpl in *;
    destruct (Nat.odd w); simpl; lia.
Qed.

Lemma length_lit (s : string) : List.length (lit s) = String.length s.
Proof.
  unfold lit. rewrite length_map.
  induction s as [|a s IH]; simpl; [reflexivity | now rewrite IH].
Qed.

Ltac line_width :=
  try change (Nat.div 48 2) with 24%nat;
  unfold PyStr.times;
  rewrite ?length_app, ?length_ljust, ?length_rjust, ?length_center,
          ?length_app, ?repeat_length, ?length_lit;
  cbn [String.length List.length]; lia.

Ltac each_line :=
  repeat (apply Forall_cons; [line_width|]); apply Forall_nil.

(** X22. When the bill number has at most 15 characters, the customer at
    most 14, the date at most 42, the total quantity at most 13 and the
    grand total at most 16, every line of the receipt is at most 48
    characters wide, for any billed items. *)
Theorem receipt_fits_the_paper :
  forall (bill_no customer date : pystr) (items : list bill_item)
         (totalqty grand : pystr),
    (List.length bill_no <= 15)%nat ->
    (List.length customer <= 14)%nat ->
    (List.length date <= 42)%nat ->
    (List.length totalqty <= 13)%nat ->
    (List.length grand <= 16)%nat ->
    Forall (fun line => (List.length line <= width)%nat)
           (print_receipt bill_no customer date items totalqty grand).
Proof.
  intros bill_no customer date items totalqty grand Hb Hc Hd Ht Hg.
  unfold print_receipt, receipt_head, receipt_foot, separator, width.
  apply Forall_app. split; [|apply Forall_app; split].
  - each_line.
  - apply Forall_forall. intros line Hin. apply in_map_iff in Hin.
    destruct Hin as (it & <- & _). rewrite length_item_line. lia.
  - each_line.
Qed.

Lemma receipt_fits_the_paper_witness :
  Forall (fun line => (List.length line <= 48)%nat)
         (print_receipt (lit "1001") (lit "Asha") (lit "01-06-2024 10:30 AM")
            (billed_lines (BillingTab.rows Sample.rice_bill))
            (lit "27.0") (lit "1310.0")).
Proof.
  apply receipt_fits_the_paper; simpl; lia.
Defined.

(* ================================================================= *)
(** ** The preview of the item dialog against the billing row *)

Lemma converted_label_tier `{PyParse} `{PyFloatFmt} (sec text : pystr)
    (label : string) (a c : float) :
  py_float text = Some a ->
  PrimFloat.eqb c PyFloat.zero = false ->
  let shown := py_str_float (py_round2 (PrimFloat.div a c)) in
  ItemDialog.converted_label sec c text = sec ++ lit ": " ++ shown /\
  BillingTab.converted_tier label (RReal a) (RReal c)
  = Ok [lit label ++ [rupee] ++ shown].
Proof.
  intros Ha Hc. unfold ItemDialog.converted_label, BillingTab.converted_tier.
  rewrite Ha. simpl. unfold py_truediv. rewrite Hc. now split.
Qed.





(* ================================================================= *)
(** ** The stock table: which rows are marked *)

(** X24. The stock table marks an item when its stock is at or below its
    alert level, an empty or [NULL] cell counting as zero: a row whose two
    cells are numbers is marked exactly when the stock is at most the alert
    level, a row with neither stock nor alert level is marked, and a row
    with a stock or alert text that does not read as a number is not
    marked. *)
Theorem low_stock_marks `{PyParse} :
  forall r : Item.row,
    (forall s a, Item.StockQty r = RReal s -> Item.AlertLevel r = RReal a ->
                 low_stock r = PrimFloat.leb s a) /\
    (absent (Item.StockQty r) -> absent (Item.AlertLevel r) ->
     low_stock r = true) /\
    (forall a, absent (Item.StockQty r) -> Item.AlertLevel r = RReal a ->
               low_stock r = PrimFloat.leb PyFloat.zero a) /\
    (forall t, t <> [] -> py_float t = None ->
               Item.StockQty r = RText t \/ Item.AlertLevel r = RText t ->
               low_stock r = false).
Proof.
  intros r. unfold low_stock, absent. repeat split.
  - intros s a -> ->. reflexivity.
  - intros [-> | ->] [-> | ->]; reflexivity.
  - intros a [-> | ->] ->; reflexivity.
  - intros t Ht Hnone [Hs | Ha].
    + rewrite Hs. destruct t; [contradiction|]. simpl.
      unfold float_of_text. now rewrite Hnone.
    + rewrite Ha. destruct (cell_or_zero (Item.StockQty r)); [|reflexivity].
      destruct t; [contradiction|]. simpl.
      unfold float_of_text. now rewrite Hnone.
Qed.

Lemma low_stock_marks_witness :
  low_stock Sample.rice = false
  /\ low_stock (Item.with_StockQty Sample.rice (RReal 2%float)) = true
  /\ low_stock (Item.with_StockQty Sample.rice (RText [])) = true.
Proof.
  split; [|split].
  - exact (proj1 (low_stock_marks Sample.rice) 10%float 2%float
                 eq_refl eq_refl).
  - exact (proj1 (low_stock_marks
                    (Item.with_StockQty Sample.rice (RReal 2%float)))
                 2%float 2%float eq_refl eq_refl).
  - exact (proj1 (proj2 (proj2 (low_stock_marks
                    (Item.with_StockQty Sample.rice (RText [])))))
                 2%float (or_intror eq_refl) eq_refl).
Defined.

(* ================================================================= *)
(** ** A conversion rate kept as text *)

(** C1 fails on an existing item whose conversion rate is neither absent
    nor a number in its column: a text the item dialog stored as typed.
    With the item's secondary unit as the unit, [update_stock] passes the
    text to [float]: when [float] rejects it the call raises [ValueError],
    when [float] reads it as zero the call divides by zero and raises
    [ZeroDivisionError], and in both cases the database is as before, so
    the stock does not change by the quantity; only when [float] reads
    another number does the stock change, by the quantity divided by
    it. *)
Theorem update_stock_text_rate_raises `{PyParse} `{SqliteCoerce} :
  forall (db : DB) (item_name unit : pystr) (q : float) (r : Item.row)
         (s : pystr),
    fetch_item (Items db) item_name = Some r ->
    Item.SecondaryUnit r = Some unit ->
    Item.ConversionRate r = RText s ->
    s <> [] ->
    match py_float s with
    | None => update_stock item_name unit q db = (db, Raise ValueError)
    | Some x =>
        if PrimFloat.eqb x PyFloat.zero
        then update_stock item_name unit q db = (db, Raise ZeroDivisionError)
        else
          exists (db' : DB) (r' : Item.row),
            update_stock item_name unit q db = (db', Ok tt) /\
            fetch_item (Items db') item_name = Some r' /\
            Item.StockQty r' = sql_plus (Item.StockQty r) (PrimFloat.div q x)
            /\ same_but_stock r r'
    end.
Proof.
  intros db item_name unit q r s Hfetch Hsec Hconv Hs.
  assert (Hunit : text_equals unit (Item.SecondaryUnit r) = true)
    by now apply text_equals_iff.
  unfold update_stock, to_base_unit. rewrite Hfetch, Hunit, Hconv.
  destruct s as [|c s]; [contradiction|].
  cbn [real_truthy PyStr.truthy andb float_of_cell].
  destruct (py_float (c :: s)) as [x|]; [|reflexivity].
  cbn [rbind]. unfold py_truediv.
  destruct (PrimFloat.eqb x PyFloat.zero); [reflexivity|].
  do 2 eexists. split; [reflexivity|]. cbn [fst Items with_Items].
  split; [eapply fetch_add_to_stock_same; exact Hfetch|].
  split; [reflexivity | apply same_but_stock_with].
Qed.

Lemma update_stock_text_rate_raises_witness :
  ItemDialog.accept Sample.flour_form Sample.shop
  = (Sample.shop_with_flour, Done)
  /\ fetch_item (Items Sample.shop_with_flour) (lit "Flour")
     = Some Sample.flour
  /\ Item.StockQty Sample.flour = RReal 5%float
  /\ update_stock (lit "Flour") (lit "Gram") 500%float Sample.shop_with_flour
     = (Sample.shop_with_flour, Raise ValueError)
  /\ PurchasesTab.add_stock (lit "2024-06-01 09:00:00") Sample.flour_purchase
                            Sample.shop_with_flour
     = (Sample.shop_with_flour, Raised ValueError)
  /\ (exists receipt : list pystr,
        BillingTab.print_and_finish Sample.flour_bill Sample.shop_with_flour
        = (Sample.shop_with_flour,
           BillingTab.PrintingFailed receipt ValueError)).
Proof.
  assert (Hrow : fetch_item (Items Sample.shop_with_flour) (lit "Flour")
                 = Some Sample.flour) by reflexivity.
  pose proof (update_stock_text_rate_raises Sample.shop_with_flour
                (lit "Flour") (unit := lit "Gram") 500%float
                (r := Sample.flour) (s := lit "1,000") Hrow eq_refl eq_refl
                ltac:(discriminate)) as Hraise.
  split; [reflexivity|]. split; [exact Hrow|]. split; [reflexivity|].
  split; [exact Hraise|]. split; [reflexivity|].
  eexists. reflexivity.
Defined.

(* ================================================================= *)
(** ** An opening stock kept as text *)

(** C3 fails for an item whose opening stock the item dialog stored as a
    text that is not a number.  Sugar is saved with the opening stock
    [1,000], which the dialog shows again when the item is loaded; one
    purchase of 5 kg is entered and reports success, and the ledger of the
    item holds that one change of 5.  The stock afterwards is 6: SQLite
    reads the text as 1 when it adds. *)
Theorem stock_text_opening_out_of_sync `{PyFloatFmt} :
  let entry := PurchaseEntry (lit "2024-06-01 09:00:00")
                             Sample.sugar_purchase in
  ItemDialog.accept Sample.sugar_form Sample.shop
  = (Sample.shop_with_sugar, Done) /\
  fetch_item (Items Sample.shop_with_sugar) (lit "Sugar")
  = Some Sample.sugar /\
  Item.StockQty Sample.sugar = RText (lit "1,000") /\
  ItemDialog.stockqty
    (load_item Sample.shop_with_sugar (lit "Sugar") Sample.sugar_form)
  = lit "1,000" /\
  numeric_or_blank (Item.ConversionRate Sample.sugar) /\
  ledger Sample.sugar [entry] = [5%float] /\
  exists (db' : DB) (r' : Item.row),
    run [entry] Sample.shop_with_sugar = Some db' /\
    fetch_item (Items db') (lit "Sugar") = Some r' /\
    Item.StockQty r' = RReal 6%float /\
    same_but_stock Sample.sugar r'.
Proof.
  cbv zeta. repeat (split; [reflexivity|]).
  do 2 eexists. split; [vm_compute; reflexivity|].
  split; [reflexivity|]. split; [reflexivity|].
  repeat split.
Qed.

(* ================================================================= *)
(** ** What is kept of a sale and of a purchase *)

Lemma only_stock_of_refl (names : list pystr) (r : Item.row) :
  only_stock_of names r r.
Proof. split; [apply same_but_stock_refl | reflexivity]. Qed.

Lemma Forall2_compose {A} (R1 R2 R3 : A -> A -> Prop) :
  (forall a b c, R1 a b -> R2 b c -> R3 a c) ->
  forall l1 l2 l3, Forall2 R1 l1 l2 -> Forall2 R2 l2 l3 -> Forall2 R3 l1 l3.
Proof.
  intros HR l1 l2 l3 H12. revert l3.
  induction H12 as [|a b l1 l2 Hab _ IH]; intros l3 H23;
    inversion H23; subst; constructor; eauto.
Qed.

(** Selling the lines of a bill touches the stock of the items the lines
    name, and nothing else of [Items]. *)
Lemma sell_only_billed `{PyParse} `{SqliteCoerce} (items : list bill_item) :
  forall db : DB,
    Forall2 (only_stock_of (map bi_item items))
            (Items db) (Items (fst (BillingTab.sell items db))).
Proof.
  induction items as [|it items IH]; intros db; simpl.
  - apply Forall2_same, only_stock_of_refl.
  - destruct (float_of_text (bi_qty it)) as [q|e];
      [|apply Forall2_same, only_stock_of_refl].
    pose proof (update_stock_rows db (bi_item it) (bi_unit it)
                                  (PyFloat.neg q)) as Hrows.
    destruct (update_stock _ _ _ db) as [db1 [[]|e]]; simpl in Hrows |- *.
    + eapply Forall2_compose; [|exact Hrows|apply IH].
      intros a b c [Hab Hb] [Hbc Hc]. split.
      * eapply same_but_stock_trans; eassumption.
      * intros Hnot.
        assert (Eb : b = a).
        { apply Hb. intros E. apply Hnot. left. now symmetry. }
        subst b. apply Hc. intros Hin. apply Hnot. now right.
    + eapply Forall2_impl; [|exact Hrows].
      intros a b [Hab Hb]. split; [exact Hab|].
      intros Hnot. apply Hb. intros E. apply Hnot. left. now symmetry.
Qed.

Lemma print_and_finish_only_billed `{PyParse} `{SqliteCoerce}
    (b : BillingTab.bill) (db : DB) :
  Forall2 (only_stock_of (map bi_item (billed_lines (BillingTab.rows b))))
          (Items db) (Items (fst (BillingTab.print_and_finish b db))).
Proof.
  unfold BillingTab.print_and_finish.
  pose proof (gather_lines (BillingTab.rows b)) as Hg.
  destruct (BillingTab.gather (BillingTab.rows b)) as [items|e];
    [|apply Forall2_same, only_stock_of_refl].
  subst items.
  pose proof (sell_only_billed (billed_lines (BillingTab.rows b)) db)
    as Hsell.
  destruct (BillingTab.sell _ db) as [db1 [[]|e]]; simpl in Hsell;
    [|exact Hsell].
  pose proof (get_next_bill_no_items db1) as Hitems.
  destruct (get_next_bill_no db1) as [db2 [no|e]]; simpl in Hitems |- *;
    now rewrite Hitems.
Qed.

(** A finished bill has advanced the counter by one, to the number it
    returns. *)
Lemma print_and_finish_counter `{PyParse} `{SqliteCoerce}
    (b : BillingTab.bill) (db db' : DB) (receipt : list pystr)
    (next_no : Z) :
  BillingTab.print_and_finish b db
  = (db', BillingTab.Finished receipt next_no) ->
  exists (row : Setting.row) (text : pystr),
    fetch_setting (Settings db) LastBillNo_key = Some row /\
    Setting.Value row = Some text /\
    py_int text = Some (next_no - 1)%Z /\
    fetch_setting (Settings db') LastBillNo_key
    = Some (Setting.mk LastBillNo_key (Some (PyStr.of_int next_no))).
Proof.
  unfold BillingTab.print_and_finish.
  destruct (BillingTab.gather (BillingTab.rows b)) as [items|e];
    [|discriminate].
  pose proof (sell_settings items db) as Hs.
  destruct (BillingTab.sell items db) as [db1 [[]|e]]; simpl in Hs;
    [|discriminate].
  destruct (get_next_bill_no db1) as [db2 [no|e]] eqn:En; [|discriminate].
  intros [= <- _ <-].
  unfold get_next_bill_no in En. rewrite Hs in En.
  destruct (fetch_setting (Settings db) LastBillNo_key) as [row|] eqn:Er;
    [|discriminate].
  destruct (Setting.Value row) as [text|] eqn:Ev; [|discriminate].
  destruct (py_int text) as [n|] eqn:Ei; [|discriminate].
  injection En as <- <-. exists row, text.
  split; [reflexivity|]. split; [exact Ev|]. split.
  - rewrite Ei. f_equal. lia.
  - cbn [Settings with_Settings]. eapply fetch_set_setting. exact Er.
Qed.

(** The stock a finished bill leaves for an item whose conversion rate is
    absent or a number. *)
Lemma print_and_finish_stock `{PyParse} `{SqliteCoerce}
    (b : BillingTab.bill) (db db' : DB) (receipt : list pystr)
    (next_no : Z) (r : Item.row) :
  BillingTab.print_and_finish b db
  = (db', BillingTab.Finished receipt next_no) ->
  fetch_item (Items db) (Item.Name r) = Some r ->
  numeric_or_blank (Item.ConversionRate r) ->
  exists r' : Item.row,
    fetch_item (Items db') (Item.Name r) = Some r' /\
    Item.StockQty r'
    = fold_left sql_plus (line_changes r (BillingTab.rows b))
                (Item.StockQty r) /\
    same_but_stock r r'.
Proof.
  intros Hfin Hfetch Hconv.
  assert (Hdone : complete (Sale b) db = Some db')
    by (simpl; now rewrite Hfin).
  assert (Hstart : fetch_item (Items db) (Item.Name r)
                   = Some (Item.with_StockQty r (Item.StockQty r)))
    by (rewrite Hfetch; now destruct r).
  pose proof (@complete_fetch _ _ r (Sale b) db db' (Item.StockQty r)
                              Hconv Hdone Hstart) as Hrow.
  eexists. split; [exact Hrow|]. split; [reflexivity|].
  apply same_but_stock_with.
Qed.

(** C4, as the program has it: purchases are recorded, sales are not.
    [print_and_finish], whatever way it ends, adds no row to any table: the
    database afterwards differs from the one before at most in [StockQty]
    cells of [Items] and in the value of the [LastBillNo] setting, and an
    item row differs only when a billed line (a line with an item and a
    quantity above zero) names it.  When the bill finishes, the setting
    has gone from the number read to that number plus one, which is the
    number returned, and an item whose conversion rate is absent or a
    number has its old stock plus, by SQL [+] and in the order of the
    lines, minus the quantity of each billed line that names it, converted
    to the base unit.  A purchase entry with item, unit and quantity filled
    in, a quantity that reads as a number, and an item of [Items] whose
    conversion rate is absent or a number, reports success and appends one
    row to [Purchases] with the date, the supplier, the item's key, the
    unit, the quantity and the rate. *)
Theorem sale_unrecorded_purchase_logged `{PyParse} `{SqliteCoerce} :
  (forall (b : BillingTab.bill) (db : DB),
      let db' := fst (BillingTab.print_and_finish b db) in
      only_stock_and_counter db db' /\
      Forall2 (only_stock_of
                 (map bi_item (billed_lines (BillingTab.rows b))))
              (Items db) (Items db')) /\
  (forall (b : BillingTab.bill) (db db' : DB) (receipt : list pystr)
          (next_no : Z),
      BillingTab.print_and_finish b db
      = (db', BillingTab.Finished receipt next_no) ->
      (exists (row : Setting.row) (text : pystr),
          fetch_setting (Settings db) LastBillNo_key = Some row /\
          Setting.Value row = Some text /\
          py_int text = Some (next_no - 1)%Z /\
          fetch_setting (Settings db') LastBillNo_key
          = Some (Setting.mk LastBillNo_key
                             (Some (PyStr.of_int next_no)))) /\
      (forall r : Item.row,
          fetch_item (Items db) (Item.Name r) = Some r ->
          numeric_or_blank (Item.ConversionRate r) ->
          exists r' : Item.row,
            fetch_item (Items db') (Item.Name r) = Some r' /\
            Item.StockQty r'
            = fold_left sql_plus (line_changes r (BillingTab.rows b))
                        (Item.StockQty r) /\
            same_but_stock r r')) /\
  (forall (now : pystr) (f : PurchasesTab.form) (db : DB) (r : Item.row)
          (q : float),
      PurchasesTab.item f <> [] ->
      PurchasesTab.unit f <> [] ->
      PurchasesTab.qty f <> [] ->
      py_float (PurchasesTab.qty f) = Some q ->
      fetch_item (Items db) (PurchasesTab.item f) = Some r ->
      numeric_or_blank (Item.ConversionRate r) ->
      exists (db' : DB) (id : Z),
        PurchasesTab.add_stock now f db = (db', Done) /\
        Purchases db'
        = Purchases db
          ++ [Purchase.mk id (Some now) (Some (PurchasesTab.supplier f))
                          (Item.ItemID r) (Some (PurchasesTab.unit f))
                          (real_affinity (PurchasesTab.qty f))
                          (real_affinity (PurchasesTab.rate f))]).
Proof.
  split; [|split].
  - intros b db db'. split.
    + apply print_and_finish_only_stock.
    + apply print_and_finish_only_billed.
  - intros b db db' receipt next_no Hfin. split.
    + eapply print_and_finish_counter. exact Hfin.
    + intros r Hfetch Hconv.
      eapply print_and_finish_stock; eassumption.
  - apply add_stock_logs.
Qed.

Lemma sale_unrecorded_purchase_logged_witness :
  (exists (db' : DB) (receipt : list pystr) (rice' : Item.row),
      BillingTab.print_and_finish Sample.rice_bill Sample.shop
      = (db', BillingTab.Finished receipt 1001%Z)
      /\ only_stock_and_counter Sample.shop db'
      /\ Forall2 (only_stock_of [lit "Rice"; lit "Soap"])
                 (Items Sample.shop) (Items db')
      /\ fetch_setting (Settings db') LastBillNo_key
         = Some (Setting.mk LastBillNo_key (Some (lit "1001")))
      /\ fetch_item (Items db') (lit "Rice") = Some rice'
      /\ Item.StockQty rice' = RReal 9.5%float)
  /\ exists (db' : DB) (id : Z),
       PurchasesTab.add_stock (lit "2024-06-01 09:00:00")
                              Sample.rice_purchase Sample.shop
       = (db', Done)
       /\ Purchases db'
          = [Purchase.mk id (Some (lit "2024-06-01 09:00:00"))
                         (Some (lit "Agro Traders")) 1
                         (Some (lit "Bag")) (RReal 3%float)
                         (RReal 2000%float)].
Proof.
  destruct (@sale_unrecorded_purchase_logged plain_parse plain_sqlite)
    as (Hany & Hfinished & Hpurchase).
  split.
  - destruct (Hany Sample.rice_bill Sample.shop) as [Honly Hbilled].
    assert (Hfin : BillingTab.print_and_finish Sample.rice_bill Sample.shop
                   = (fst (BillingTab.print_and_finish Sample.rice_bill
                                                       Sample.shop),
                      BillingTab.Finished
                        (print_receipt (lit "1001") (lit "Asha")
                           (lit "01-06-2024 10:30 AM")
                           (billed_lines (BillingTab.rows Sample.rice_bill))
                           (lit "27.0") (lit "1310.0"))
                        1001%Z)) by reflexivity.
    destruct (Hfinished _ _ _ _ _ Hfin) as [Hcounter Hstock].
    destruct Hcounter as (row & text & _ & _ & _ & Hnew).
    assert (Hrice : fetch_item (Items Sample.shop) (Item.Name Sample.rice)
                    = Some Sample.rice) by reflexivity.
    destruct (Hstock Sample.rice Hrice I) as (rice' & Hrow & Hqty & _).
    eexists _, _, rice'. split; [exact Hfin|].
    split; [exact Honly|]. split; [exact Hbilled|].
    split; [exact Hnew|]. split; [exact Hrow | exact Hqty].
  - assert (Hq : py_float (PurchasesTab.qty Sample.rice_purchase)
                 = Some 3%float) by reflexivity.
    assert (Hrow : fetch_item (Items Sample.shop)
                              (PurchasesTab.item Sample.rice_purchase)
                   = Some Sample.rice) by reflexivity.
    refine (Hpurchase (lit "2024-06-01 09:00:00") Sample.rice_purchase
                      Sample.shop Sample.rice 3%float _ _ _ Hq Hrow I);
      discriminate.
Defined.
